(** * dnd-web: the room / session coordination layer of [app.py]

    A shallow embedding of the event handlers of [src/app.py]
    ([on_create_character], [on_join], [on_leave], [handle_message]), of the
    narrator client [call_ai_as_dm], the dice roller [generate_dice_roll] and
    the room listing [get_rooms], followed by the properties of the
    specification that concern them.

    Modelling conventions.
    - A Python [str] is a Rocq [string]; every character is read as a code
      point in 0..255, on which [lower] and [strip] below agree with
      Python's [str.lower] and [str.strip].
    - [GAME_ROOMS] and [USERS] are [gmap]s keyed by strings, a room's
      ['players'] is a [gset] of user names.
    - A handler runs from its first to its last line without interleaving;
      the [Lock] objects therefore have no observable effect and a room
      carries no ['lock'] field.
    - What the outside world decides is an input of the handler: the outcome
      of [requests.post], the wall-clock time and the draws of the [random]
      module.
    - Every [emit] is recorded, in program order, in the list of emissions
      the handler returns. *)

From Stdlib Require Import ZArith Ascii String List Lia DecimalString.
From stdpp Require Import gmap strings list fin_maps.

Local Open Scope string_scope.

(** ** Python string operations *)

Module PyStr.

Definition code (c : ascii) : nat := nat_of_ascii c.

(** [str.lower] on one code point below 256: [A-Z] and the Latin-1 capitals
    (192..222 without the multiplication sign 215) move up by 32. *)
Definition lower_char (c : ascii) : ascii :=
  let n := code c in
  if ((65 <=? n) && (n <=? 90))%nat
     || ((192 <=? n) && (n <=? 222) && negb (n =? 215))%nat
  then ascii_of_nat (n + 32)
  else c.

Fixpoint lower (s : string) : string :=
  match s with
  | EmptyString => EmptyString
  | String c s' => String (lower_char c) (lower s')
  end.

(** [s.startswith(p)] *)
Definition startswith (p s : string) : bool := String.prefix p s.

(** [sub in s]: [sub] occurs in [s] at some offset. *)
Fixpoint contains (sub s : string) : bool :=
  startswith sub s
  || match s with
     | EmptyString => false
     | String _ s' => contains sub s'
     end.

(** [any(w in s for w in ws)] *)
Definition any_in (ws : list string) (s : string) : bool :=
  existsb (fun w => contains w s) ws.

(** [any(s.startswith(w) for w in ws)] *)
Definition any_startswith (ws : list string) (s : string) : bool :=
  existsb (fun w => startswith w s) ws.

(** [str.isspace] on one code point below 256. *)
Definition is_space (c : ascii) : bool :=
  let n := code c in
  (((9 <=? n) && (n <=? 13)) || ((28 <=? n) && (n <=? 32))
   || (n =? 133) || (n =? 160))%nat.

Fixpoint lstrip (s : string) : string :=
  match s with
  | EmptyString => EmptyString
  | String c s' => if is_space c then lstrip s' else s
  end.

(** [rstrip] drops the trailing run of white space: a character is kept
    when it is not white space or when something is kept after it. *)
Fixpoint rstrip (s : string) : string :=
  match s with
  | EmptyString => EmptyString
  | String c s' =>
      match rstrip s' with
      | EmptyString => if is_space c then EmptyString else String c EmptyString
      | r => String c r
      end
  end.

(** [s.strip()] *)
Definition strip (s : string) : string := rstrip (lstrip s).

Fixpoint drop (n : nat) (s : string) : string :=
  match n, s with
  | O, _ => s
  | S _, EmptyString => EmptyString
  | S n', String _ s' => drop n' s'
  end.

(** [s[-n:]] for [n > 0]: the slice starts at [max (len s - n) 0]. *)
Definition last_chars (n : nat) (s : string) : string :=
  drop (String.length s - n) s.

(** [str(i)] for an [int]. *)
Definition str_of_int (i : Z) : string :=
  NilZero.string_of_int (Z.to_int i).

(** [s[1:]] *)
Definition tail (s : string) : string := drop 1 s.

Definition digit_of (c : ascii) : option Z :=
  let n := code c in
  if ((48 <=? n) && (n <=? 57))%nat then Some (Z.of_nat (n - 48)) else None.

Fixpoint parse_digits (acc : Z) (s : string) : option Z :=
  match s with
  | EmptyString => Some acc
  | String c s' =>
      match digit_of c with
      | Some d => parse_digits (10 * acc + d) s'
      | None => None
      end
  end.

(** [int(s)] as CPython 3.11 computes it on a run of ASCII digits: the value
    of a non-empty run of at most 4300 digits (the default limit on the
    digits of an integer string; leading zeros count). [None] stands for the
    [ValueError] raised on the empty string, on a longer run and on a
    string with any other character. The strings with a sign, surrounding
    blanks or underscores that [int] accepts are not modelled (they are
    [None] here); they do not occur at the call sites of this program, and
    no statement below is about them. *)
Definition int_of_str (s : string) : option Z :=
  match s with
  | EmptyString => None
  | _ => if (String.length s <=? 4300)%nat then parse_digits 0 s else None
  end.

End PyStr.

(** ** Results of fallible code *)

(** [Raise msg] is a raised exception whose [str(e)] is [msg]. *)
Inductive result (A : Type) : Type :=
| Ok (a : A)
| Raise (msg : string).
Arguments Ok {A} a.
Arguments Raise {A} msg.

(** ** The [random] module *)

(** The generator is an unbounded supply of raw draws and a cursor; it is
    part of the process state, as the module-level generator of [random]. *)
Record Random := mkRandom { raw : nat -> nat; pos : nat }.

Definition next_raw (g : Random) : nat * Random :=
  (raw g (pos g), mkRandom (raw g) (S (pos g))).

(** [random.randint(a, b)], that is [randrange(a, b + 1)]: a value of
    [a..b], [ValueError] (with the text of CPython 3.11) when [b < a]. *)
Definition randint (a b : Z) (g : Random) : result (Z * Random) :=
  if (b <? a)%Z then
    Raise ("empty range for randrange() (" ++ PyStr.str_of_int a ++ ", "
           ++ PyStr.str_of_int (b + 1) ++ ", "
           ++ PyStr.str_of_int (b + 1 - a) ++ ")")
  else
    let (r, g') := next_raw g in
    Ok ((a + Z.of_nat r mod (b - a + 1))%Z, g').

(** [random.choice(seq)] on a non-empty sequence; [d] is only the filler of
    [nth] and is never returned. *)
Definition choice {A} (d : A) (seq : list A) (g : Random) : A * Random :=
  let (r, g') := next_raw g in
  (nth (r mod length seq) seq d, g').

(** ** Dice (lines 38-40) *)

(** [sum(random.randint(1, int(die_type[1:])) for _ in range(num))]: the
    generator expression evaluates [int(die_type[1:])] once per round. *)
Fixpoint roll_sum (die_type : string) (rounds : nat) (g : Random)
  : result (Z * Random) :=
  match rounds with
  | O => Ok (0%Z, g)
  | S k =>
      match PyStr.int_of_str (PyStr.tail die_type) with
      | None =>
          Raise ("invalid literal for int() with base 10: '"
                 ++ PyStr.tail die_type ++ "'")
      | Some sides =>
          match randint 1 sides g with
          | Raise msg => Raise msg
          | Ok (v, g1) =>
              match roll_sum die_type k g1 with
              | Raise msg => Raise msg
              | Ok (t, g2) => Ok ((v + t)%Z, g2)
              end
          end
      end
  end.

Definition generate_dice_roll (die_type : string) (num modifier : Z) (g : Random)
  : result (Z * Random) :=
  match roll_sum die_type (Z.to_nat num) g with
  | Raise msg => Raise msg
  | Ok (total, g') => Ok ((total + modifier)%Z, g')
  end.

(** ** Data model (lines 31-36) *)

(** A value of [GAME_ROOMS]. *)
Record Room := mkRoom {
  story_state : string;
  players : gset string
}.

(** [USERS[sid]['character']] *)
Record Character := mkCharacter {
  class : string;
  hp : Z;
  inventory : list string
}.

(** A value of [USERS]. *)
Record User := mkUser {
  username : string;
  character : Character;
  room : string
}.

(** The process state: the two module-level dictionaries, the rooms of the
    socket layer as pairs (connection id, room name) maintained by
    [join_room] and [leave_room], and the random generator. *)
Record World := mkWorld {
  GAME_ROOMS : gmap string Room;
  USERS : gmap string User;
  sio_rooms : gset (string * string);
  rng : Random
}.

Definition DEFAULT_ROOM : string := "main_adventure".

Definition set_GAME_ROOMS (w : World) (rooms : gmap string Room) : World :=
  mkWorld rooms (USERS w) (sio_rooms w) (rng w).
Definition set_USERS (w : World) (users : gmap string User) : World :=
  mkWorld (GAME_ROOMS w) users (sio_rooms w) (rng w).
Definition set_sio_rooms (w : World) (sr : gset (string * string)) : World :=
  mkWorld (GAME_ROOMS w) (USERS w) sr (rng w).
Definition set_rng (w : World) (g : Random) : World :=
  mkWorld (GAME_ROOMS w) (USERS w) (sio_rooms w) g.

(** ** Emissions *)

Inductive Payload : Type :=
| message (user msg : string)               (* 'message' {username, message} *)
| character_update (inv : list string)      (* 'character_update' {inventory} *)
| room_update (rooms : gmap string nat).    (* 'room_update' {rooms: {id: {players: n}}} *)

(** Where an [emit] is addressed: no [room] argument (the requesting
    connection), [room=r] with its [include_self] flag, or
    [broadcast=True]. *)
Inductive Dest : Type :=
| to_requester
| to_room (r : string) (include_self : bool)
| to_everyone.

Record Emission := emit { dest : Dest; payload : Payload }.

(** ** What the outside world supplies to one narrator call *)

(** The outcome of [requests.post] and of reading the reply out of it. *)
Inductive PostOutcome : Type :=
| post_raises (msg : string)
    (* [requests.post] raised (time-out, connection error); [msg] is [str(e)] *)
| post_response (status_code : Z) (content : result string).
    (* a response; [content] is what
       [response.json()['choices'][0]['message']['content']] evaluates to,
       or the exception that evaluating it raises *)

Record Clock := mkClock { hour : nat; minute : nat }.

Definition two_digits (n : nat) : string :=
  if (n <? 10)%nat then "0" ++ PyStr.str_of_int (Z.of_nat n)
  else PyStr.str_of_int (Z.of_nat n).

(** [datetime.now().strftime('%H:%M')] *)
Definition strftime_HM (t : Clock) : string :=
  two_digits (hour t) ++ ":" ++ two_digits (minute t).

Definition NEWLINE : string := String (ascii_of_nat 10) EmptyString.

(** ** Narrator client (lines 42-87) *)

(** [if room_id not in GAME_ROOMS: GAME_ROOMS[room_id] = {'story_state':
    story, 'players': set(), ...}] *)
Definition create_if_absent (room_id story : string) (rooms : gmap string Room)
  : gmap string Room :=
  match rooms !! room_id with
  | Some _ => rooms
  | None => <[room_id := mkRoom story ∅]> rooms
  end.

(** [room['story_state'] += entry] *)
Definition append_story (entry : string) (r : Room) : Room :=
  mkRoom (story_state r ++ entry) (players r).

(** [call_ai_as_dm(prompt, room_id, context)]. The prompt, the context and
    the headers only flow into the request sent to the service; what comes
    back is the input [net], so they are left out. The result is the new
    process state and the returned string. *)
Definition call_ai_as_dm (room_id : string) (net : PostOutcome) (now : Clock)
    (w : World) : World * string :=
  let w1 :=
    set_GAME_ROOMS w
      (create_if_absent room_id
         "A new adventure begins in a vast world of magic and mystery."
         (GAME_ROOMS w)) in
  match net with
  | post_raises msg => (w1, "DM Exception: " ++ msg)
  | post_response status_code content =>
      if (status_code =? 200)%Z then
        match content with
        | Raise msg => (w1, "DM Exception: " ++ msg)
        | Ok text =>
            let ai_response := PyStr.strip text in
            let annotated : result (string * Random) :=
              if PyStr.any_in ["roll"; "attack"; "check"] (PyStr.lower ai_response)
              then
                match generate_dice_roll "d20" 1 0 (rng w1) with
                | Raise msg => Raise msg
                | Ok (roll, g) =>
                    Ok (ai_response ++ " (DM rolls: " ++ PyStr.str_of_int roll
                        ++ " on d20)", g)
                end
              else Ok (ai_response, rng w1) in
            match annotated with
            | Raise msg => (w1, "DM Exception: " ++ msg)
            | Ok (ai_response, g) =>
                let w2 := set_rng w1 g in
                let entry := NEWLINE ++ strftime_HM now ++ ": " ++ ai_response in
                (set_GAME_ROOMS w2
                   (alter (append_story entry) room_id (GAME_ROOMS w2)),
                 ai_response)
            end
        end
      else
        (w1, "DM Error: " ++ PyStr.str_of_int status_code
             ++ " - Check API key/quotas.")
  end.

(** ** Room listing (lines 93-95, 126, 149) *)

(** [{k: {'players': len(v['players'])} for k, v in GAME_ROOMS.items()}] *)
Definition room_counts (rooms : gmap string Room) : gmap string nat :=
  (fun v => size (players v)) <$> rooms.

(** The same comprehension with the condition [if v.get('players')]. *)
Definition room_counts_nonempty (rooms : gmap string Room) : gmap string nat :=
  room_counts (filter (fun kv => players kv.2 ≠ ∅) rooms).

Definition get_rooms (w : World) : gmap string nat :=
  room_counts (GAME_ROOMS w).

(** ** Event handlers; [sid] is [request.sid] *)

(** Lines 97-105. *)
Definition on_create_character (sid : string)
    (data_username data_charClass : string) (data_maxHP : Z) (w : World)
  : World * list Emission :=
  (set_USERS w
     (<[sid := mkUser data_username
                 (mkCharacter data_charClass data_maxHP [])
                 DEFAULT_ROOM]> (USERS w)),
   [emit to_requester (character_update [])]).

Definition set_room (room_id : string) (u : User) : User :=
  mkUser (username u) (character u) room_id.

Definition add_player (name : string) (r : Room) : Room :=
  mkRoom (story_state r) ({[name]} ∪ players r).

Definition discard_player (name : string) (r : Room) : Room :=
  mkRoom (story_state r) (players r ∖ {[name]}).

(** [data['room'] if data.get('room') else DEFAULT_ROOM]: a missing key and
    the empty string are both falsy. *)
Definition requested_room (data_room : option string) : string :=
  match data_room with
  | None => DEFAULT_ROOM
  | Some EmptyString => DEFAULT_ROOM
  | Some r => r
  end.

(** The story of a room, [""] when the room is absent. *)
Definition story_of (rooms : gmap string Room) (room_id : string) : string :=
  match rooms !! room_id with
  | Some r => story_state r
  | None => ""
  end.

(** The member set of a room, empty when the room is absent. *)
Definition members_of (rooms : gmap string Room) (room_id : string) : gset string :=
  match rooms !! room_id with
  | Some r => players r
  | None => ∅
  end.

(** Lines 107-131. *)
Definition on_join (sid : string) (data_room : option string) (w : World)
  : World * list Emission :=
  match USERS w !! sid with
  | None => (w, [emit to_requester (message "System" "Create a character first!")])
  | Some u =>
      let username := username u in
      let room_id := requested_room data_room in
      let w1 := set_USERS w (<[sid := set_room room_id u]> (USERS w)) in
      let w2 := set_sio_rooms w1 ({[(sid, room_id)]} ∪ sio_rooms w1) in
      let w3 :=
        set_GAME_ROOMS w2
          (create_if_absent room_id "A new party forms. What adventures await?"
             (GAME_ROOMS w2)) in
      let w4 :=
        set_GAME_ROOMS w3 (alter (add_player username) room_id (GAME_ROOMS w3)) in
      let current_state := PyStr.last_chars 500 (story_of (GAME_ROOMS w4) room_id) in
      (w4,
       [emit (to_room room_id true)
          (message "System"
             (username ++ " joins " ++ room_id ++ "! The tale unfolds..."));
        emit to_everyone (room_update (room_counts (GAME_ROOMS w4)));
        emit (to_room sid true)
          (message "DM (AI)" ("Current tale: " ++ current_state ++ "..."))])
  end.

(** Lines 133-149. *)
Definition on_leave (sid : string) (w : World) : World * list Emission :=
  match USERS w !! sid with
  | None => (w, [])
  | Some u =>
      let username := username u in
      let room_id := room u in
      let w1 := set_sio_rooms w (sio_rooms w ∖ {[(sid, room_id)]}) in
      let rooms1 :=
        match GAME_ROOMS w1 !! room_id with
        | None => GAME_ROOMS w1
        | Some r =>
            let r' := discard_player username r in
            if decide (players r' = ∅)
            then delete room_id (GAME_ROOMS w1)
            else <[room_id := r']> (GAME_ROOMS w1)
        end in
      let w2 := set_GAME_ROOMS w1 rooms1 in
      (w2,
       [emit (to_room room_id true)
          (message "System" (username ++ " departs the realm."));
        emit to_everyone (room_update (room_counts_nonempty (GAME_ROOMS w2)))])
  end.

Definition add_item (item : string) (u : User) : User :=
  mkUser (username u)
    (mkCharacter (class (character u)) (hp (character u))
       (inventory (character u) ++ [item]))
    (room u).

Definition LOOT_TABLE : list string :=
  ["Potion of Healing"; "Rusty Sword"; "Gold Coin"; "Magic Scroll"].

(** The test of line 168 on the string the narrator call returned. *)
Definition mentions_loot (ai_response : string) : bool :=
  PyStr.any_in ["find"; "loot"; "treasure"] (PyStr.lower ai_response).

(** The inventory shown to the client: [USERS[sid]['character']['inventory']]. *)
Definition inventory_of (users : gmap string User) (sid : string) : list string :=
  match users !! sid with
  | Some u => inventory (character u)
  | None => []
  end.

(** ** Message classification (line 164) *)

(** The condition of the [if]: both halves test [... in message.lower()]. *)
Definition triggers_dm (msg : string) : bool :=
  PyStr.any_in ["i "; "we "; "group: "; "the party "] (PyStr.lower msg)
  || PyStr.any_in ["attack"; "cast"; "investigate"; "roll"; "?"] (PyStr.lower msg).

(** The classification rule in the words of the specification: the lowercased
    message starts with an action prefix, or contains an action keyword or a
    question mark. *)
Definition classify_spec (msg : string) : bool :=
  PyStr.any_startswith ["i "; "we "; "group: "; "the party "] (PyStr.lower msg)
  || PyStr.any_in ["attack"; "cast"; "investigate"; "roll"] (PyStr.lower msg)
  || PyStr.contains "?" (PyStr.lower msg).

(** Lines 151-172. *)
Definition handle_message (sid : string) (data_message : string)
    (net : PostOutcome) (now : Clock) (w : World) : World * list Emission :=
  match USERS w !! sid with
  | None => (w, [])
  | Some u =>
      let username := username u in
      let room_id := room u in
      let echo := emit (to_room room_id false) (message username data_message) in
      if triggers_dm data_message then
        let (w1, ai_response) := call_ai_as_dm room_id net now w in
        let reply := emit (to_room room_id true) (message "DM (AI)" ai_response) in
        if mentions_loot ai_response then
          let (new_item, g) := choice "" LOOT_TABLE (rng w1) in
          let w2 := set_rng w1 g in
          let w3 := set_USERS w2 (alter (add_item new_item) sid (USERS w2)) in
          (w3,
           [echo;
            emit (to_room sid true)
              (character_update (inventory_of (USERS w3) sid));
            reply])
        else (w1, [echo; reply])
      else (w, [echo])
  end.

(** ** Runs of the server *)

Inductive Event : Type :=
| ev_create_character (sid username charClass : string) (maxHP : Z)
| ev_join (sid : string) (data_room : option string)
| ev_leave (sid : string)
| ev_message (sid msg : string) (net : PostOutcome) (now : Clock).

Definition step (w : World) (e : Event) : World * list Emission :=
  match e with
  | ev_create_character sid u c h => on_create_character sid u c h w
  | ev_join sid r => on_join sid r w
  | ev_leave sid => on_leave sid w
  | ev_message sid m net now => handle_message sid m net now w
  end.

(** The state after a sequence of events, handled one after the other. *)
Definition run (w : World) (es : list Event) : World :=
  fold_left (fun w e => fst (step w e)) es w.

(** The state of a freshly started process with generator [g]. *)
Definition init (g : Random) : World := mkWorld ∅ ∅ ∅ g.

Definition reachable (w : World) : Prop :=
  exists g es, w = run (init g) es.

(** ** Predicates used in the statements *)

(** No room of the registry has an empty member set. *)
Definition no_empty_room (rooms : gmap string Room) : Prop :=
  map_Forall (fun _ r => players r ≠ ∅) rooms.

(** The room for which handling [e] in state [w] calls the narrator, if it
    calls it at all. *)
Definition narrator_target (w : World) (e : Event) : option string :=
  match e with
  | ev_message sid msg _ _ =>
      match USERS w !! sid with
      | Some u => if triggers_dm msg then Some (room u) else None
      | None => None
      end
  | _ => None
  end.

(** Along the run of [es] from [w], the narrator is only ever called for a
    room that is in the registry at that moment. *)
Fixpoint narrator_calls_known_rooms (w : World) (es : list Event) : Prop :=
  match es with
  | [] => True
  | e :: es' =>
      (forall rid, narrator_target w e = Some rid -> is_Some (GAME_ROOMS w !! rid))
      /\ narrator_calls_known_rooms (step w e).1 es'
  end.

(** The registry after [on_leave] of a session [u]. *)
Definition rooms_after_leave (u : User) (rooms : gmap string Room)
  : gmap string Room :=
  match rooms !! room u with
  | None => rooms
  | Some r =>
      if decide (players r ∖ {[username u]} = ∅)
      then delete (room u) rooms
      else <[room u := discard_player (username u) r]> rooms
  end.

(** A narrator call fails: the transport raises, the status is not 200, or
    the reply cannot be read out of the response. *)
Definition failed (net : PostOutcome) : bool :=
  match net with
  | post_raises _ => true
  | post_response status_code content =>
      negb (status_code =? 200)%Z
      || match content with Raise _ => true | Ok _ => false end
  end.

(** The test of line 76 on the stripped reply. *)
Definition implies_roll (reply : string) : bool :=
  PyStr.any_in ["roll"; "attack"; "check"] (PyStr.lower reply).

Definition OPENING_NARRATOR : string :=
  "A new adventure begins in a vast world of magic and mystery.".
Definition OPENING_JOIN : string :=
  "A new party forms. What adventures await?".

(** ** Sample inputs *)

Definition g0 : Random := mkRandom (fun n => 7 * n + 3)%nat 0.
Definition noon : Clock := mkClock 12 0.

(** One connection creates a character and, without joining any room, sends
    an action while the narrator service times out. *)
Definition lonely_action : list Event :=
  [ev_create_character "s1" "alice" "Wizard" 10;
   ev_message "s1" "I attack the goblin" (post_raises "timed out") noon].

(** Two connections in the room "cave". *)
Definition two_in_cave : list Event :=
  [ev_create_character "s1" "alice" "Wizard" 10;
   ev_create_character "s2" "bob" "Rogue" 8;
   ev_join "s1" (Some "cave");
   ev_join "s2" (Some "cave")].

(** The two connections of [two_in_cave] play a turn, then both leave. *)
Definition cave_session : list Event :=
  two_in_cave
  ++ [ev_message "s1" "We roll for initiative"
        (post_response 200 (Ok " You attack first and find a rusty key. ")) noon;
      ev_leave "s1";
      ev_leave "s2"].

(** ** Start-up configuration (lines 20-28) *)

(** [input(prompt)]: the next line of standard input, without its line end;
    [EOFError] when there is none. The result carries the lines left. *)
Definition input (stdin : list string) : result (string * list string) :=
  match stdin with
  | [] => Raise "EOF when reading a line"
  | line :: rest => Ok (line, rest)
  end.

(** The truth value of what [os.environ.get] returns: [None] and the empty
    string are falsy. *)
Definition is_set (v : option string) : bool :=
  match v with
  | Some (String _ _) => true
  | _ => false
  end.

(** [if not V: V = input(...).strip()] *)
Definition or_prompt (v : option string) (stdin : list string)
  : result (string * list string) :=
  match v with
  | Some (String c s) => Ok (String c s, stdin)
  | _ =>
      match input stdin with
      | Raise msg => Raise msg
      | Ok (line, rest) => Ok (PyStr.strip line, rest)
      end
  end.

(** Lines 20-28: the two settings are taken from the environment, asked on
    standard input when unset, and the module raises [ValueError] when one
    of them is still empty. The result is [(OPENROUTER_API_KEY, MODEL)] and
    the lines of standard input left unread. *)
Definition read_config (env_key env_model : option string) (stdin : list string)
  : result (string * string * list string) :=
  match or_prompt env_key stdin with
  | Raise msg => Raise msg
  | Ok (key, stdin1) =>
      match or_prompt env_model stdin1 with
      | Raise msg => Raise msg
      | Ok (model, stdin2) =>
          match key, model with
          | String _ _, String _ _ => Ok (key, model, stdin2)
          | _, _ => Raise "API key and model required."
          end
      end
  end.

(** ** Predicates used in the further statements *)

(** The characters [int] can accept somewhere in its argument: digits, a
    sign, an underscore and white space. *)
Definition int_char (c : ascii) : bool :=
  match PyStr.digit_of c with
  | Some _ => true
  | None =>
      (PyStr.code c =? 43)%nat || (PyStr.code c =? 45)%nat
      || (PyStr.code c =? 95)%nat || PyStr.is_space c
  end.

(** [s] has a character that [int] accepts nowhere. *)
Fixpoint has_non_int_char (s : string) : bool :=
  match s with
  | EmptyString => false
  | String c s' => negb (int_char c) || has_non_int_char s'
  end.

(** What handling a message leaves alone in a session: name, room, class and
    hit points. *)
Definition identity_of (u : User) : string * string * string * Z :=
  (username u, room u, class (character u), hp (character u)).

(** The story [after] is the story [before] with something appended. *)
Definition story_extends (before after : string) : Prop :=
  exists suffix, after = before ++ suffix.

(** The story of [r] begins with one of the two opening lines. *)
Definition opened (r : Room) : Prop :=
  story_extends OPENING_NARRATOR (story_state r)
  \/ story_extends OPENING_JOIN (story_state r).

(** From the registry [rooms] to [rooms']: a room that was there has kept
    its story or had something appended to it, a room that was not there
    begins with an opening line. *)
Definition grown (rooms rooms' : gmap string Room) : Prop :=
  forall id r',
    rooms' !! id = Some r' ->
    match rooms !! id with
    | Some r => story_extends (story_state r) (story_state r')
    | None => opened r'
    end.

(** [n] times the character [c]. *)
Fixpoint repeat_char (c : ascii) (n : nat) : string :=
  match n with
  | O => EmptyString
  | S n' => String c (repeat_char c n')
  end.

(** The two connections of [two_in_cave], after a turn whose reply is 600
    characters long: the story of "cave" then has 649 characters. *)
Definition long_tale_in_cave : list Event :=
  two_in_cave
  ++ [ev_message "s1" "What is written on the wall?"
        (post_response 200 (Ok (repeat_char "x" 600))) noon].

(** One connection in the room "cave". *)
Definition alice_in_cave : list Event :=
  [ev_create_character "s1" "alice" "Wizard" 10;
   ev_join "s1" (Some "cave")].

(** * Properties *)

(** ** Strings *)

Section StringFacts.

Lemma length_drop n s : String.length (PyStr.drop n s) = (String.length s - n)%nat.
Proof.
  revert s; induction n as [|n IH]; intros s; simpl.
  - lia.
  - destruct s as [|c s]; simpl; [reflexivity | apply IH].
Qed.

Lemma drop_0 s : PyStr.drop 0 s = s.
Proof. reflexivity. Qed.

Lemma drop_is_suffix n s : exists pre, s = pre ++ PyStr.drop n s.
Proof.
  revert s; induction n as [|n IH]; intros s.
  - exists ""; reflexivity.
  - destruct s as [|c s]; simpl.
    + exists ""; reflexivity.
    + destruct (IH s) as [pre Hpre]. exists (String c pre).
      change (String c s = String c (pre ++ PyStr.drop n s)).
      now f_equal.
Qed.

Lemma last_chars_length n s : (String.length (PyStr.last_chars n s) <= n)%nat.
Proof. unfold PyStr.last_chars. rewrite length_drop. lia. Qed.

Lemma last_chars_exact n s :
  (n <= String.length s)%nat -> String.length (PyStr.last_chars n s) = n.
Proof. intros H. unfold PyStr.last_chars. rewrite length_drop. lia. Qed.

Lemma last_chars_short n s :
  (String.length s <= n)%nat -> PyStr.last_chars n s = s.
Proof.
  intros H. unfold PyStr.last_chars.
  replace (String.length s - n)%nat with 0%nat by lia. apply drop_0.
Qed.

Lemma last_chars_is_suffix n s : exists pre, s = pre ++ PyStr.last_chars n s.
Proof. apply drop_is_suffix. Qed.

Lemma startswith_app p s : PyStr.startswith p (p ++ s) = true.
Proof.
  unfold PyStr.startswith. induction p as [|c p IH]; simpl.
  - now destruct s.
  - destruct (ascii_dec c c); [exact IH | congruence].
Qed.

Lemma startswith_contains p s :
  PyStr.startswith p s = true -> PyStr.contains p s = true.
Proof. intros H. destruct s; cbn [PyStr.contains]; rewrite H; reflexivity. Qed.

Lemma any_startswith_any_in ws s :
  PyStr.any_startswith ws s = true -> PyStr.any_in ws s = true.
Proof.
  unfold PyStr.any_startswith, PyStr.any_in. rewrite !existsb_exists.
  intros [w [Hin Hw]]. exists w. split; [exact Hin | now apply startswith_contains].
Qed.

(** [any(w in s for w in ws)] holds exactly when some word of [ws] occurs
    in [s]. *)
Lemma any_in_spec ws s :
  PyStr.any_in ws s = true <-> exists w, In w ws /\ PyStr.contains w s = true.
Proof. unfold PyStr.any_in. apply existsb_exists. Qed.

Lemma startswith_spec p s :
  PyStr.startswith p s = true <-> exists after, s = p ++ after.
Proof.
  split.
  - unfold PyStr.startswith. revert s.
    induction p as [|c p IH]; intros s H; [now exists s |].
    destruct s as [|d s]; cbn [String.prefix] in H; [discriminate |].
    destruct (ascii_dec c d) as [<- | _]; [| discriminate].
    destruct (IH s H) as [after ->]. now exists after.
  - intros [after ->]. apply startswith_app.
Qed.

(** [sub in s] holds exactly when [s] is some text, [sub], and some text. *)
Lemma contains_spec w s :
  PyStr.contains w s = true <-> exists before after, s = before ++ w ++ after.
Proof.
  split.
  - induction s as [|d s IH]; cbn [PyStr.contains]; rewrite orb_true_iff.
    + intros [H | H]; [| discriminate].
      apply startswith_spec in H as [after H]. now exists "", after.
    + intros [H | H].
      * apply startswith_spec in H as [after H]. now exists "", after.
      * destruct (IH H) as (before & after & ->). now exists (String d before), after.
  - intros (before & after & ->).
    induction before as [|c before IH].
    + apply startswith_contains, (startswith_app w after).
    + change (String c before ++ w ++ after) with (String c (before ++ w ++ after)).
      cbn [PyStr.contains]. rewrite orb_true_iff. now right.
Qed.

(** [any(w in s for w in ws)] holds exactly when a word of [ws] occurs
    somewhere in [s]. *)
Lemma any_in_occurrence ws s :
  PyStr.any_in ws s = true
  <-> exists word before after, In word ws /\ s = before ++ word ++ after.
Proof.
  rewrite any_in_spec. split.
  - intros (w & Hin & Hw). apply contains_spec in Hw as (before & after & ->).
    now exists w, before, after.
  - intros (w & before & after & Hin & ->). exists w. split; [exact Hin |].
    apply contains_spec. now exists before, after.
Qed.

End StringFacts.

(** ** Dice *)

Lemma generate_dice_roll_d20 g :
  generate_dice_roll "d20" 1 0 g
  = Ok ((1 + Z.of_nat (raw g (pos g)) mod 20)%Z, mkRandom (raw g) (S (pos g))).
Proof.
  unfold generate_dice_roll. simpl. unfold randint. simpl.
  now rewrite !Z.add_0_r.
Qed.

Lemma d20_range g :
  (1 <= 1 + Z.of_nat (raw g (pos g)) mod 20 <= 20)%Z.
Proof.
  pose proof (Z.mod_pos_bound (Z.of_nat (raw g (pos g))) 20). lia.
Qed.

(** ** Classification *)

(** Whatever the rule of the specification accepts, the code accepts. *)
Lemma classify_spec_triggers_dm msg :
  classify_spec msg = true -> triggers_dm msg = true.
Proof.
  unfold classify_spec, triggers_dm. rewrite !orb_true_iff.
  intros [[H | H] | H].
  - left. now apply any_startswith_any_in.
  - right. apply any_in_spec in H as [w [Hin Hw]]. apply any_in_spec.
    exists w. split; [| exact Hw]. simpl in *. tauto.
  - right. apply any_in_spec. exists "?". split; [simpl; tauto | exact H].
Qed.

(** The three examples of the specification, evaluated on the code. *)
Lemma triggers_dm_examples :
  triggers_dm "I attack the goblin" = true
  /\ triggers_dm "hello everyone" = false
  /\ triggers_dm "what happens?" = true.
Proof. repeat split; reflexivity. Qed.

(** C1 (the trigger classification is true exactly when the lowercased
    message starts with an action prefix or contains an action keyword or a
    question mark): the code tests the prefixes with [in], not at the start
    of the message. On "hi there", where the prefix "i " occurs at offset 1,
    the code calls the narrator although the rule of the specification does
    not hold. *)
Theorem C1_prefix_matched_anywhere :
  triggers_dm "hi there" = true /\ classify_spec "hi there" = false.
Proof. split; reflexivity. Qed.

(** ** The narrator client *)

Arguments generate_dice_roll : simpl never.

Section NarratorFacts.

Variables (rid : string) (now : Clock) (w : World).

(** The registry once the call has made sure that its room exists. *)
Local Abbreviation ensured :=
  (create_if_absent rid OPENING_NARRATOR (GAME_ROOMS w)).

Lemma call_ai_as_dm_post_raises msg :
  call_ai_as_dm rid (post_raises msg) now w
  = (set_GAME_ROOMS w ensured, "DM Exception: " ++ msg).
Proof. reflexivity. Qed.

Lemma call_ai_as_dm_bad_status status content :
  status <> 200%Z ->
  call_ai_as_dm rid (post_response status content) now w
  = (set_GAME_ROOMS w ensured,
     "DM Error: " ++ PyStr.str_of_int status ++ " - Check API key/quotas.").
Proof.
  intros Hs. unfold call_ai_as_dm.
  destruct (Z.eqb_spec status 200) as [E | _]; [contradiction | reflexivity].
Qed.

Lemma call_ai_as_dm_bad_body msg :
  call_ai_as_dm rid (post_response 200 (Raise msg)) now w
  = (set_GAME_ROOMS w ensured, "DM Exception: " ++ msg).
Proof. reflexivity. Qed.

(** A reply that could be read: the roll, when there is one, is the next
    draw of the generator. *)
Lemma call_ai_as_dm_success text :
  call_ai_as_dm rid (post_response 200 (Ok text)) now w
  = let reply := PyStr.strip text in
    let roll := (1 + Z.of_nat (raw (rng w) (pos (rng w))) mod 20)%Z in
    let returned :=
      if implies_roll reply
      then reply ++ " (DM rolls: " ++ PyStr.str_of_int roll ++ " on d20)"
      else reply in
    let g :=
      if implies_roll reply
      then mkRandom (raw (rng w)) (S (pos (rng w)))
      else rng w in
    (mkWorld
       (alter (append_story (NEWLINE ++ strftime_HM now ++ ": " ++ returned))
          rid ensured)
       (USERS w) (sio_rooms w) g,
     returned).
Proof.
  unfold call_ai_as_dm, implies_roll. cbn [Z.eqb Pos.eqb].
  cbn [rng set_GAME_ROOMS].
  rewrite generate_dice_roll_d20.
  destruct (PyStr.any_in _ (PyStr.lower (PyStr.strip text))); reflexivity.
Qed.

Lemma failed_cases net :
  failed net = true ->
  (exists msg, net = post_raises msg)
  \/ (exists status content, net = post_response status content /\ status <> 200%Z)
  \/ (exists msg, net = post_response 200 (Raise msg)).
Proof.
  destruct net as [msg | status content]; simpl.
  - intros _. left. now exists msg.
  - destruct (Z.eqb_spec status 200) as [-> | Hne]; simpl.
    + destruct content as [text | msg]; [discriminate |].
      intros _. right. right. now exists msg.
    + intros _. right. left. now exists status, content.
Qed.

(** A failed call leaves behind the registry with the room ensured, and
    nothing else. *)
Lemma call_ai_as_dm_failed_state net :
  failed net = true ->
  (call_ai_as_dm rid net now w).1 = set_GAME_ROOMS w ensured.
Proof.
  intros Hf. destruct (failed_cases net Hf) as [[msg ->] | [(s & c & -> & Hs) | [msg ->]]].
  - reflexivity.
  - now rewrite call_ai_as_dm_bad_status.
  - reflexivity.
Qed.

Lemma call_ai_as_dm_failed_text net :
  failed net = true ->
  PyStr.startswith "DM Exception: " (call_ai_as_dm rid net now w).2 = true
  \/ PyStr.startswith "DM Error: " (call_ai_as_dm rid net now w).2 = true.
Proof.
  intros Hf. destruct (failed_cases net Hf) as [[msg ->] | [(s & c & -> & Hs) | [msg ->]]].
  - left. apply (startswith_app "DM Exception: ").
  - right. rewrite call_ai_as_dm_bad_status by exact Hs.
    apply (startswith_app "DM Error: ").
  - left. apply (startswith_app "DM Exception: ").
Qed.

(** The call never touches the sessions. *)
Lemma call_ai_as_dm_USERS net :
  USERS (call_ai_as_dm rid net now w).1 = USERS w.
Proof.
  destruct (failed net) eqn:Hf.
  - now rewrite call_ai_as_dm_failed_state.
  - destruct net as [msg | status [text | msg]]; simpl in Hf; try discriminate.
    + destruct (Z.eqb_spec status 200) as [-> | Hne]; simpl in Hf; [| discriminate].
      now rewrite call_ai_as_dm_success.
    + destruct (Z.eqb_spec status 200); simpl in Hf; discriminate.
Qed.

(** The call never touches a member set: room by room, the members after
    the call are those of the ensured registry. *)
Lemma call_ai_as_dm_players net id :
  players <$> GAME_ROOMS (call_ai_as_dm rid net now w).1 !! id
  = players <$> ensured !! id.
Proof.
  destruct (failed net) eqn:Hf.
  - now rewrite call_ai_as_dm_failed_state.
  - destruct net as [msg | status [text | msg]]; simpl in Hf; try discriminate.
    + destruct (Z.eqb_spec status 200) as [-> | Hne]; simpl in Hf; [| discriminate].
      rewrite call_ai_as_dm_success. cbn [fst GAME_ROOMS].
      rewrite lookup_alter. case_decide as Hid; [subst id |]; [| reflexivity].
      now destruct (ensured !! rid).
    + destruct (Z.eqb_spec status 200); simpl in Hf; discriminate.
Qed.

End NarratorFacts.

Lemma create_if_absent_present rid story rooms :
  is_Some (rooms !! rid) -> create_if_absent rid story rooms = rooms.
Proof. intros [r Hr]. unfold create_if_absent. now rewrite Hr. Qed.

Lemma create_if_absent_absent rid story (rooms : gmap string Room) :
  rooms !! rid = None ->
  create_if_absent rid story rooms = <[rid := mkRoom story ∅]> rooms.
Proof. intros Hr. unfold create_if_absent. now rewrite Hr. Qed.

Lemma create_if_absent_is_Some rid story rooms :
  is_Some (create_if_absent rid story rooms !! rid).
Proof.
  unfold create_if_absent. destruct (rooms !! rid) as [r|] eqn:Hr.
  - rewrite Hr. eauto.
  - rewrite lookup_insert_eq. eauto.
Qed.

Lemma create_if_absent_other rid story (rooms : gmap string Room) id :
  id <> rid -> create_if_absent rid story rooms !! id = rooms !! id.
Proof.
  intros Hne. unfold create_if_absent. destruct (rooms !! rid); [reflexivity |].
  now rewrite lookup_insert_ne.
Qed.

(** C8. On a response with status 200 whose reply text can be read, the
    stripped reply is returned with the annotation " (DM rolls: n on d20)"
    appended exactly when one of the words "roll", "attack", "check" occurs
    somewhere in its lowercased text. The number [n] is what
    [generate_dice_roll()] returns with its defaults (one d20, no modifier):
    1 plus the next draw of the generator modulo 20, hence between 1 and 20,
    and the generator moves on by exactly that one draw. Without a trigger
    word the reply is returned as it is and no draw is taken. The returned
    text, annotation included, is what is appended to the story of the
    room. *)
Theorem C8_roll_annotation (rid text : string) (now : Clock) (w : World) :
  let reply := PyStr.strip text in
  let result := call_ai_as_dm rid (post_response 200 (Ok text)) now w in
  let roll := (1 + Z.of_nat (raw (rng w) (pos (rng w))) mod 20)%Z in
  let moved_on := mkRandom (raw (rng w)) (S (pos (rng w))) in
  (PyStr.any_in ["roll"; "attack"; "check"] (PyStr.lower reply) = true
   <-> exists word before after,
         In word ["roll"; "attack"; "check"]
         /\ PyStr.lower reply = before ++ word ++ after)
  /\ (if PyStr.any_in ["roll"; "attack"; "check"] (PyStr.lower reply)
      then generate_dice_roll "d20" 1 0 (rng w) = Ok (roll, moved_on)
           /\ (1 <= roll <= 20)%Z
           /\ rng result.1 = moved_on
           /\ result.2
              = reply ++ " (DM rolls: " ++ PyStr.str_of_int roll ++ " on d20)"
      else result.2 = reply /\ rng result.1 = rng w)
  /\ story_of (GAME_ROOMS result.1) rid
     = story_of (create_if_absent rid OPENING_NARRATOR (GAME_ROOMS w)) rid
       ++ NEWLINE ++ strftime_HM now ++ ": " ++ result.2
  /\ (exists r, GAME_ROOMS result.1 !! rid = Some r
                /\ story_state r
                   = match GAME_ROOMS w !! rid with
                     | Some r0 => story_state r0
                     | None => OPENING_NARRATOR
                     end
                     ++ NEWLINE ++ strftime_HM now ++ ": " ++ result.2).
Proof.
  intros reply result roll moved_on. subst result.
  split; [apply any_in_occurrence |].
  rewrite call_ai_as_dm_success.
  fold reply. unfold implies_roll. cbn [fst snd GAME_ROOMS rng].
  split; [| split].
  - destruct (PyStr.any_in _ (PyStr.lower reply)).
    + split; [apply generate_dice_roll_d20 |].
      split; [apply d20_range |]. split; reflexivity.
    + split; reflexivity.
  - unfold story_of. rewrite lookup_alter_eq.
    destruct (create_if_absent_is_Some rid OPENING_NARRATOR (GAME_ROOMS w)) as [r Hr].
    rewrite Hr. reflexivity.
  - rewrite lookup_alter_eq. unfold create_if_absent.
    destruct (GAME_ROOMS w !! rid) as [r0|] eqn:Hr0.
    + rewrite Hr0. eexists. split; reflexivity.
    + rewrite lookup_insert_eq. eexists. split; reflexivity.
Qed.

(** C3. A narrator call that fails (the transport raises, the status is not
    200, or the reply cannot be read) returns a string that starts with
    "DM Exception: " or "DM Error: " instead of raising, and appends nothing:
    the registry after the call is the registry before it with the room of
    the call ensured, a room that was already in the registry is exactly as
    it was, and sessions and generator are untouched. *)
Theorem C3_failed_call_leaves_story (rid : string) (net : PostOutcome)
    (now : Clock) (w : World) :
  failed net = true ->
  let result := call_ai_as_dm rid net now w in
  (PyStr.startswith "DM Exception: " result.2 = true
   \/ PyStr.startswith "DM Error: " result.2 = true)
  /\ GAME_ROOMS result.1 = create_if_absent rid OPENING_NARRATOR (GAME_ROOMS w)
  /\ (forall r, GAME_ROOMS w !! rid = Some r ->
        GAME_ROOMS result.1 = GAME_ROOMS w
        /\ story_of (GAME_ROOMS result.1) rid = story_state r)
  /\ (GAME_ROOMS w !! rid = None ->
        story_of (GAME_ROOMS result.1) rid = OPENING_NARRATOR)
  /\ USERS result.1 = USERS w
  /\ rng result.1 = rng w.
Proof.
  intros Hf result. subst result.
  split; [now apply call_ai_as_dm_failed_text |].
  rewrite call_ai_as_dm_failed_state by exact Hf. cbn [GAME_ROOMS USERS rng set_GAME_ROOMS].
  split; [reflexivity |]. split; [| split; [| split; reflexivity]].
  - intros r Hr. rewrite create_if_absent_present by eauto.
    split; [reflexivity |]. unfold story_of. now rewrite Hr.
  - intros Hr. rewrite create_if_absent_absent by exact Hr.
    unfold story_of. now rewrite lookup_insert_eq.
Qed.

Lemma C3_witness :
  failed (post_response 503 (Ok "Service Unavailable")) = true
  /\ let result :=
       call_ai_as_dm "cave" (post_response 503 (Ok "Service Unavailable")) noon
         (run (init g0) two_in_cave) in
     result.2 = "DM Error: 503 - Check API key/quotas."
     /\ story_of (GAME_ROOMS result.1) "cave" = OPENING_JOIN.
Proof.
  split; [reflexivity |].
  pose proof (C3_failed_call_leaves_story "cave"
                (post_response 503 (Ok "Service Unavailable")) noon
                (run (init g0) two_in_cave) eq_refl) as H.
  cbv zeta in *. destruct H as (_ & _ & Hsame & _).
  split; [reflexivity |].
  destruct (Hsame (mkRoom OPENING_JOIN {["alice"; "bob"]})) as [_ Hstory].
  - vm_compute. reflexivity.
  - exact Hstory.
Defined.

(** ** Room lifecycle *)

Lemma on_join_session sid data_room w u :
  USERS w !! sid = Some u ->
  on_join sid data_room w
  = let room_id := requested_room data_room in
    let rooms :=
      alter (add_player (username u)) room_id
        (create_if_absent room_id OPENING_JOIN (GAME_ROOMS w)) in
    (mkWorld rooms (<[sid := set_room room_id u]> (USERS w))
       ({[(sid, room_id)]} ∪ sio_rooms w) (rng w),
     [emit (to_room room_id true)
        (message "System"
           (username u ++ " joins " ++ room_id ++ "! The tale unfolds..."));
      emit to_everyone (room_update (room_counts rooms));
      emit (to_room sid true)
        (message "DM (AI)"
           ("Current tale: " ++ PyStr.last_chars 500 (story_of rooms room_id)
            ++ "..."))]).
Proof. intros Hu. unfold on_join. rewrite Hu. reflexivity. Qed.

Lemma on_join_no_session sid data_room w :
  USERS w !! sid = None ->
  on_join sid data_room w
  = (w, [emit to_requester (message "System" "Create a character first!")]).
Proof. intros Hu. unfold on_join. now rewrite Hu. Qed.

Lemma on_leave_session sid w u :
  USERS w !! sid = Some u ->
  on_leave sid w
  = let rooms := rooms_after_leave u (GAME_ROOMS w) in
    (mkWorld rooms (USERS w) (sio_rooms w ∖ {[(sid, room u)]}) (rng w),
     [emit (to_room (room u) true)
        (message "System" (username u ++ " departs the realm."));
      emit to_everyone (room_update (room_counts_nonempty rooms))]).
Proof. intros Hu. unfold on_leave. rewrite Hu. reflexivity. Qed.

Lemma on_leave_no_session sid w :
  USERS w !! sid = None -> on_leave sid w = (w, []).
Proof. intros Hu. unfold on_leave. now rewrite Hu. Qed.

Lemma rooms_after_leave_other u rooms id :
  id <> room u -> rooms_after_leave u rooms !! id = rooms !! id.
Proof.
  intros Hne. unfold rooms_after_leave.
  destruct (rooms !! room u) as [r|]; [| reflexivity].
  case_decide.
  - now rewrite lookup_delete_ne.
  - now rewrite lookup_insert_ne.
Qed.

Lemma handle_message_rooms sid msg net now w u :
  USERS w !! sid = Some u ->
  triggers_dm msg = true ->
  GAME_ROOMS (handle_message sid msg net now w).1
  = GAME_ROOMS (call_ai_as_dm (room u) net now w).1.
Proof.
  intros Hu Ht. unfold handle_message. rewrite Hu, Ht.
  destruct (call_ai_as_dm (room u) net now w) as [w1 ai_response].
  destruct (mentions_loot ai_response); [| reflexivity].
  destruct (choice "" LOOT_TABLE (rng w1)). reflexivity.
Qed.

Lemma handle_message_quiet sid msg net now w :
  narrator_target w (ev_message sid msg net now) = None ->
  (handle_message sid msg net now w).1 = w.
Proof.
  unfold narrator_target, handle_message.
  destruct (USERS w !! sid) as [u|]; [| reflexivity].
  destruct (triggers_dm msg); [discriminate | reflexivity].
Qed.

Section NoEmptyRoom.

(** Registries with the same member sets, room by room, agree on
    [no_empty_room]. *)
Lemma no_empty_room_same_players (rooms rooms' : gmap string Room) :
  (forall id, players <$> rooms' !! id = players <$> rooms !! id) ->
  no_empty_room rooms -> no_empty_room rooms'.
Proof.
  intros Hsame Hinv id r' Hr'. specialize (Hsame id). rewrite Hr' in Hsame.
  destruct (rooms !! id) as [r|] eqn:Hr; [| discriminate].
  injection Hsame as ->. exact (Hinv id r Hr).
Qed.

Lemma no_empty_room_join name rid story rooms :
  no_empty_room rooms ->
  no_empty_room (alter (add_player name) rid (create_if_absent rid story rooms)).
Proof.
  intros Hinv id r Hr. apply lookup_alter_Some in Hr as [[<- (x & Hx & ->)] | [Hne Hr]].
  - cbn [players add_player]. set_solver.
  - rewrite create_if_absent_other in Hr by congruence. exact (Hinv id r Hr).
Qed.

Lemma no_empty_room_leave u rooms :
  no_empty_room rooms -> no_empty_room (rooms_after_leave u rooms).
Proof.
  intros Hinv. unfold rooms_after_leave.
  destruct (rooms !! room u) as [r|] eqn:Hr; [| exact Hinv].
  case_decide as He.
  - intros id r' Hr'. apply lookup_delete_Some in Hr' as [_ Hr'].
    exact (Hinv id r' Hr').
  - intros id r' Hr'. apply lookup_insert_Some in Hr' as [[<- <-] | [_ Hr']].
    + exact He.
    + exact (Hinv id r' Hr').
Qed.

Lemma no_empty_room_narrator rid net now w :
  is_Some (GAME_ROOMS w !! rid) ->
  no_empty_room (GAME_ROOMS w) ->
  no_empty_room (GAME_ROOMS (call_ai_as_dm rid net now w).1).
Proof.
  intros Hin. apply no_empty_room_same_players. intros id.
  rewrite call_ai_as_dm_players. now rewrite create_if_absent_present.
Qed.

(** One event keeps the registry free of empty rooms, unless it calls the
    narrator for a room that is not in the registry. *)
Lemma no_empty_room_step w e :
  (forall rid, narrator_target w e = Some rid -> is_Some (GAME_ROOMS w !! rid)) ->
  no_empty_room (GAME_ROOMS w) ->
  no_empty_room (GAME_ROOMS (step w e).1).
Proof.
  intros Hknown Hinv. destruct e as [sid name cls h | sid d | sid | sid msg net now];
    cbn [step].
  - exact Hinv.
  - destruct (USERS w !! sid) as [u|] eqn:Hu.
    + rewrite (on_join_session _ _ _ _ Hu). now apply no_empty_room_join.
    + now rewrite on_join_no_session.
  - destruct (USERS w !! sid) as [u|] eqn:Hu.
    + rewrite (on_leave_session _ _ _ Hu). now apply no_empty_room_leave.
    + now rewrite on_leave_no_session.
  - destruct (narrator_target w (ev_message sid msg net now)) as [rid|] eqn:Ht.
    + specialize (Hknown rid eq_refl). cbn [narrator_target] in Ht.
      destruct (USERS w !! sid) as [u|] eqn:Hu; [| discriminate].
      destruct (triggers_dm msg) eqn:Hm; [| discriminate]. injection Ht as <-.
      rewrite (handle_message_rooms _ _ _ _ _ _ Hu Hm).
      now apply no_empty_room_narrator.
    + now rewrite handle_message_quiet.
Qed.

Lemma no_empty_room_run es : forall w,
  narrator_calls_known_rooms w es ->
  no_empty_room (GAME_ROOMS w) ->
  no_empty_room (GAME_ROOMS (run w es)).
Proof.
  induction es as [|e es IH]; intros w Hk Hinv; [exact Hinv |].
  destruct Hk as [Hke Hkes]. cbn [run fold_left]. apply IH; [exact Hkes |].
  now apply no_empty_room_step.
Qed.

(** A narrator call for a room that is not in the registry puts it there
    with no member. *)
Lemma narrator_creates_empty_room w e rid :
  narrator_target w e = Some rid ->
  GAME_ROOMS w !! rid = None ->
  exists r, GAME_ROOMS (step w e).1 !! rid = Some r /\ players r = ∅.
Proof.
  intros Ht Habs. destruct e as [| | | sid msg net now]; try discriminate.
  cbn [narrator_target] in Ht. cbn [step].
  destruct (USERS w !! sid) as [u|] eqn:Hu; [| discriminate].
  destruct (triggers_dm msg) eqn:Hm; [| discriminate]. injection Ht as <-.
  rewrite (handle_message_rooms _ _ _ _ _ _ Hu Hm).
  pose proof (call_ai_as_dm_players (room u) now w net (room u)) as Hp.
  rewrite create_if_absent_absent, lookup_insert_eq in Hp by exact Habs.
  destruct (GAME_ROOMS (call_ai_as_dm (room u) net now w).1 !! room u) as [r|];
    [| discriminate].
  exists r. split; [reflexivity |]. now injection Hp.
Qed.

End NoEmptyRoom.

(** With no empty room in the registry, the rooms of the registry are
    exactly the room ids with a non-empty member set. *)
Lemma no_empty_room_iff rooms :
  no_empty_room rooms ->
  forall id, is_Some (rooms !! id) <-> members_of rooms id <> ∅.
Proof.
  intros Hinv id. unfold members_of. split.
  - intros [r Hr]. rewrite Hr. exact (Hinv id r Hr).
  - destruct (rooms !! id) as [r|]; [eauto | congruence].
Qed.

(** *** Stories only grow *)

Section StoryFacts.

Lemma append_empty_r s : s ++ "" = s.
Proof.
  induction s as [|c s IH]; [reflexivity |].
  change (String c (s ++ "") = String c s). now f_equal.
Qed.

Lemma append_assoc (s1 s2 s3 : string) : (s1 ++ s2) ++ s3 = s1 ++ (s2 ++ s3).
Proof.
  induction s1 as [|c s1 IH]; [reflexivity |].
  change (String c ((s1 ++ s2) ++ s3) = String c (s1 ++ (s2 ++ s3))).
  now f_equal.
Qed.

Lemma story_extends_refl s : story_extends s s.
Proof. exists "". now rewrite append_empty_r. Qed.

Lemma story_extends_trans s1 s2 s3 :
  story_extends s1 s2 -> story_extends s2 s3 -> story_extends s1 s3.
Proof.
  intros [a ->] [b ->]. exists (a ++ b). apply append_assoc.
Qed.

Lemma opened_extends r r' :
  opened r -> story_extends (story_state r) (story_state r') -> opened r'.
Proof.
  intros [H | H] He; [left | right]; eapply story_extends_trans; eauto.
Qed.

Lemma grown_same_stories (rooms rooms' : gmap string Room) :
  (forall id r', rooms' !! id = Some r' ->
                 exists r, rooms !! id = Some r /\ story_state r' = story_state r) ->
  grown rooms rooms'.
Proof.
  intros H id r' Hr'. destruct (H id r' Hr') as (r & -> & ->).
  apply story_extends_refl.
Qed.

Lemma grown_refl rooms : grown rooms rooms.
Proof. apply grown_same_stories. eauto. Qed.

Lemma grown_join name rid rooms :
  grown rooms (alter (add_player name) rid (create_if_absent rid OPENING_JOIN rooms)).
Proof.
  intros id r' Hr'.
  apply lookup_alter_Some in Hr' as [[<- (x & Hx & ->)] | [Hne Hr']].
  - cbn [add_player story_state]. unfold create_if_absent in Hx.
    destruct (rooms !! rid) as [r|] eqn:Hr.
    + rewrite Hr in Hx. injection Hx as ->. apply story_extends_refl.
    + rewrite lookup_insert_eq in Hx. injection Hx as <-.
      right. apply story_extends_refl.
  - rewrite create_if_absent_other in Hr' by congruence. rewrite Hr'.
    apply story_extends_refl.
Qed.

Lemma grown_leave u rooms : grown rooms (rooms_after_leave u rooms).
Proof.
  unfold rooms_after_leave.
  destruct (rooms !! room u) as [r|] eqn:Hr; [| apply grown_refl].
  apply grown_same_stories. intros id r' Hr'. case_decide.
  - apply lookup_delete_Some in Hr' as [_ Hr']. eauto.
  - apply lookup_insert_Some in Hr' as [[<- <-] | [_ Hr']]; eauto.
Qed.

Lemma grown_narrator rid net now w :
  grown (GAME_ROOMS w) (GAME_ROOMS (call_ai_as_dm rid net now w).1).
Proof.
  assert (Hens : grown (GAME_ROOMS w)
                   (create_if_absent rid OPENING_NARRATOR (GAME_ROOMS w))).
  { intros id r' Hr'. unfold create_if_absent in Hr'.
    destruct (GAME_ROOMS w !! rid) as [r|] eqn:Hr.
    - rewrite Hr'. apply story_extends_refl.
    - apply lookup_insert_Some in Hr' as [[<- <-] | [_ Hr']].
      + rewrite Hr. left. apply story_extends_refl.
      + rewrite Hr'. apply story_extends_refl. }
  destruct (failed net) eqn:Hf.
  - now rewrite call_ai_as_dm_failed_state.
  - destruct net as [msg | status [text | msg]]; simpl in Hf; try discriminate.
    + destruct (Z.eqb_spec status 200) as [-> | Hne]; simpl in Hf; [| discriminate].
      rewrite call_ai_as_dm_success. cbv zeta. cbn [fst GAME_ROOMS].
      intros id r' Hr'.
      apply lookup_alter_Some in Hr' as [[<- (x & Hx & ->)] | [_ Hr']].
      * specialize (Hens rid x Hx). cbn [append_story story_state].
        destruct (GAME_ROOMS w !! rid) as [r|].
        -- eapply story_extends_trans; [exact Hens |]. eexists; reflexivity.
        -- eapply opened_extends; [exact Hens |]. eexists; reflexivity.
      * exact (Hens id r' Hr').
    + destruct (Z.eqb_spec status 200); simpl in Hf; discriminate.
Qed.

Lemma grown_step w e : grown (GAME_ROOMS w) (GAME_ROOMS (step w e).1).
Proof.
  destruct e as [sid name cls h | sid d | sid | sid msg net now]; cbn [step].
  - apply grown_refl.
  - destruct (USERS w !! sid) as [u|] eqn:Hu.
    + rewrite (on_join_session _ _ _ _ Hu). apply grown_join.
    + rewrite on_join_no_session by exact Hu. apply grown_refl.
  - destruct (USERS w !! sid) as [u|] eqn:Hu.
    + rewrite (on_leave_session _ _ _ Hu). apply grown_leave.
    + rewrite on_leave_no_session by exact Hu. apply grown_refl.
  - destruct (narrator_target w (ev_message sid msg net now)) as [rid|] eqn:Ht.
    + cbn [narrator_target] in Ht.
      destruct (USERS w !! sid) as [u|] eqn:Hu; [| discriminate].
      destruct (triggers_dm msg) eqn:Hm; [| discriminate].
      rewrite (handle_message_rooms _ _ _ _ _ _ Hu Hm). apply grown_narrator.
    + rewrite handle_message_quiet by exact Ht. apply grown_refl.
Qed.

End StoryFacts.

(** *** Where empty rooms come from *)

Section EmptyRooms.

(** A join leaves the joined room with its joiner. *)
Lemma join_leaves_room_nonempty sid data_room w u :
  USERS w !! sid = Some u ->
  username u ∈ members_of (GAME_ROOMS (on_join sid data_room w).1)
                 (requested_room data_room).
Proof.
  intros Hu. rewrite (on_join_session _ _ _ _ Hu). cbv zeta. cbn [fst GAME_ROOMS].
  unfold members_of. rewrite lookup_alter_eq.
  destruct (create_if_absent_is_Some (requested_room data_room) OPENING_JOIN
              (GAME_ROOMS w)) as [r ->].
  cbn [fmap option_fmap option_map add_player players].
  apply elem_of_union_l, elem_of_singleton. reflexivity.
Qed.

(** A leave leaves the room it acts on deleted or with a member. *)
Lemma leave_leaves_room_gone_or_nonempty u rooms r' :
  rooms_after_leave u rooms !! room u = Some r' -> players r' <> ∅.
Proof.
  unfold rooms_after_leave. destruct (rooms !! room u) as [r|] eqn:Hr.
  - case_decide as He.
    + rewrite lookup_delete_eq. discriminate.
    + rewrite lookup_insert_eq. intros H. injection H as <-. exact He.
  - rewrite Hr. discriminate.
Qed.

(** An event leaves a new empty room behind only when it is a narrator call
    for a room that is not in the registry. *)
Lemma empty_room_origin w e id r' :
  GAME_ROOMS (step w e).1 !! id = Some r' ->
  players r' = ∅ ->
  (exists r, GAME_ROOMS w !! id = Some r /\ players r = ∅)
  \/ (narrator_target w e = Some id /\ GAME_ROOMS w !! id = None).
Proof.
  intros Hr' He.
  destruct e as [sid name cls h | sid d | sid | sid msg net now]; cbn [step] in Hr'.
  - left. eauto.
  - destruct (USERS w !! sid) as [u|] eqn:Hu.
    + rewrite (on_join_session _ _ _ _ Hu) in Hr'. cbv zeta in Hr'.
      cbn [fst GAME_ROOMS] in Hr'.
      apply lookup_alter_Some in Hr' as [[_ (x & _ & ->)] | [Hne Hr']].
      * exfalso. cbn [players add_player] in He.
        assert (Hin : username u ∈ {[username u]} ∪ players x)
          by (apply elem_of_union_l, elem_of_singleton; reflexivity).
        rewrite He in Hin. now apply not_elem_of_empty in Hin.
      * rewrite create_if_absent_other in Hr' by congruence. left. eauto.
    + rewrite on_join_no_session in Hr' by exact Hu. left. eauto.
  - destruct (USERS w !! sid) as [u|] eqn:Hu.
    + rewrite (on_leave_session _ _ _ Hu) in Hr'. cbv zeta in Hr'.
      cbn [fst GAME_ROOMS] in Hr'.
      destruct (decide (id = room u)) as [-> | Hne].
      * exfalso. exact (leave_leaves_room_gone_or_nonempty _ _ _ Hr' He).
      * rewrite rooms_after_leave_other in Hr' by exact Hne. left. eauto.
    + rewrite on_leave_no_session in Hr' by exact Hu. left. eauto.
  - destruct (narrator_target w (ev_message sid msg net now)) as [rid|] eqn:Ht.
    + pose proof Ht as Ht'. cbn [narrator_target] in Ht.
      destruct (USERS w !! sid) as [u|] eqn:Hu; [| discriminate].
      destruct (triggers_dm msg) eqn:Hm; [| discriminate]. injection Ht as <-.
      rewrite (handle_message_rooms _ _ _ _ _ _ Hu Hm) in Hr'.
      pose proof (call_ai_as_dm_players (room u) now w net id) as Hp.
      rewrite Hr' in Hp. cbn [fmap option_fmap option_map] in Hp.
      unfold create_if_absent in Hp.
      destruct (GAME_ROOMS w !! room u) as [r0|] eqn:Hr0.
      * destruct (GAME_ROOMS w !! id) as [r|] eqn:Hr; [| discriminate].
        left. exists r. split; [reflexivity |]. injection Hp as Hp. congruence.
      * destruct (decide (room u = id)) as [<- | Hne].
        -- right. now split.
        -- rewrite lookup_insert_ne in Hp by exact Hne.
           destruct (GAME_ROOMS w !! id) as [r|] eqn:Hr; [| discriminate].
           left. exists r. split; [reflexivity |]. injection Hp as Hp. congruence.
    + rewrite handle_message_quiet in Hr' by exact Ht. left. eauto.
Qed.

(** The room a narrator call creates begins with the opening line of the
    narrator client. *)
Lemma narrator_creates_with_opening w e rid r' :
  narrator_target w e = Some rid ->
  GAME_ROOMS w !! rid = None ->
  GAME_ROOMS (step w e).1 !! rid = Some r' ->
  story_extends OPENING_NARRATOR (story_state r').
Proof.
  intros Ht Habs Hr'. destruct e as [| | | sid msg net now]; try discriminate.
  cbn [narrator_target] in Ht. cbn [step] in Hr'.
  destruct (USERS w !! sid) as [u|] eqn:Hu; [| discriminate].
  destruct (triggers_dm msg) eqn:Hm; [| discriminate]. injection Ht as <-.
  rewrite (handle_message_rooms _ _ _ _ _ _ Hu Hm) in Hr'.
  pose proof (grown_narrator (room u) net now w (room u) r' Hr') as Hg.
  rewrite Habs in Hg.
  destruct (failed net) eqn:Hf.
  - rewrite call_ai_as_dm_failed_state in Hr' by exact Hf.
    cbn [GAME_ROOMS set_GAME_ROOMS] in Hr'.
    rewrite create_if_absent_absent, lookup_insert_eq in Hr' by exact Habs.
    injection Hr' as <-. apply story_extends_refl.
  - destruct net as [m | status [text | m]]; simpl in Hf; try discriminate.
    + destruct (Z.eqb_spec status 200) as [-> | Hne]; simpl in Hf; [| discriminate].
      rewrite call_ai_as_dm_success in Hr'. cbv zeta in Hr'.
      cbn [fst GAME_ROOMS] in Hr'.
      rewrite lookup_alter_eq, create_if_absent_absent, lookup_insert_eq in Hr'
        by exact Habs.
      injection Hr' as <-. eexists; reflexivity.
    + destruct (Z.eqb_spec status 200); simpl in Hf; discriminate.
Qed.

(** In every state of a run that starts with every empty room begun by the
    narrator client, every empty room is begun by the narrator client. *)
Lemma empty_rooms_narrator_made es : forall w,
  (forall id r, GAME_ROOMS w !! id = Some r -> players r = ∅ ->
                story_extends OPENING_NARRATOR (story_state r)) ->
  forall id r, GAME_ROOMS (run w es) !! id = Some r -> players r = ∅ ->
               story_extends OPENING_NARRATOR (story_state r).
Proof.
  induction es as [|e es IH]; intros w Hw; [exact Hw |].
  cbn [run fold_left]. apply IH. intros id r' Hr' He.
  destruct (empty_room_origin w e id r' Hr' He) as [(r & Hr & Hemp) | [Ht Habs]].
  - pose proof (grown_step w e id r' Hr') as Hg. rewrite Hr in Hg.
    exact (story_extends_trans _ _ _ (Hw id r Hr Hemp) Hg).
  - exact (narrator_creates_with_opening w e id r' Ht Habs Hr').
Qed.

End EmptyRooms.

(** C2, as the code has it. Rooms with an empty member set do stay in the
    registry, and they all come from the narrator client:
    - in every state reached from the start, a room of the registry whose
      member set is empty is one that a narrator call created (its story
      begins with the opening line of the narrator client);
    - whatever the state, an event leaves behind a room with an empty
      member set that was not there and empty before only when it is a
      narrator call for a room id that is not in the registry, and every
      such call does leave that room behind with no member;
    - a join leaves the joined room with its joiner in it, and a leave
      leaves the room it acts on deleted or with a member;
    - hence, along a run in which the narrator is only called for rooms of
      the registry, a room id is in the registry exactly when its member
      set is not empty. *)
Theorem C2_empty_rooms_are_narrator_made :
  (forall g es id r,
      GAME_ROOMS (run (init g) es) !! id = Some r ->
      players r = ∅ ->
      exists rest, story_state r = OPENING_NARRATOR ++ rest)
  /\ (forall w e id r',
        GAME_ROOMS (step w e).1 !! id = Some r' ->
        players r' = ∅ ->
        (exists r, GAME_ROOMS w !! id = Some r /\ players r = ∅)
        \/ (narrator_target w e = Some id /\ GAME_ROOMS w !! id = None))
  /\ (forall w e rid,
        narrator_target w e = Some rid ->
        GAME_ROOMS w !! rid = None ->
        exists r, GAME_ROOMS (step w e).1 !! rid = Some r /\ players r = ∅)
  /\ (forall w sid data_room u,
        USERS w !! sid = Some u ->
        username u ∈ members_of (GAME_ROOMS (on_join sid data_room w).1)
                       (requested_room data_room))
  /\ (forall w sid u r',
        USERS w !! sid = Some u ->
        GAME_ROOMS (on_leave sid w).1 !! room u = Some r' ->
        players r' <> ∅)
  /\ (forall g es,
        narrator_calls_known_rooms (init g) es ->
        forall id, is_Some (GAME_ROOMS (run (init g) es) !! id)
                   <-> members_of (GAME_ROOMS (run (init g) es)) id <> ∅).
Proof.
  split; [| split; [| split; [| split; [| split]]]].
  - intros g es. apply empty_rooms_narrator_made. intros id r Hr.
    cbn [init GAME_ROOMS] in Hr. now rewrite lookup_empty in Hr.
  - apply empty_room_origin.
  - apply narrator_creates_empty_room.
  - intros w sid data_room u. apply join_leaves_room_nonempty.
  - intros w sid u r' Hu. rewrite (on_leave_session _ _ _ Hu). cbv zeta.
    cbn [fst GAME_ROOMS]. apply leave_leaves_room_gone_or_nonempty.
  - intros g es Hk. apply no_empty_room_iff, no_empty_room_run; [exact Hk |].
    intros id r Hr. cbn [init GAME_ROOMS] in Hr. now rewrite lookup_empty in Hr.
Qed.

(** The claim of C2 as it is written fails on [lonely_action]: the narrator
    call for the default room, which nobody has joined, leaves the room in
    the registry with no member. *)
Lemma C2_counterexample :
  reachable (run (init g0) lonely_action)
  /\ ~ no_empty_room (GAME_ROOMS (run (init g0) lonely_action)).
Proof.
  split.
  - exists g0, lonely_action. reflexivity.
  - intros Hinv.
    apply (Hinv "main_adventure" (mkRoom OPENING_NARRATOR ∅)); reflexivity.
Qed.

(** Checks [narrator_calls_known_rooms] on a concrete run, event by event. *)
Ltac check_known_rooms :=
  repeat lazymatch goal with
    | |- True => exact I
    | |- _ /\ _ => split
    | |- forall rid, _ -> _ =>
        let H := fresh "H" in
        intros rid H; vm_compute in H;
        first [ discriminate H
              | injection H as <-; vm_compute; eexists; reflexivity ]
    end.

(** On [lonely_action]: the message of "s1", sent before any join, is a
    narrator call for the default room, which is not in the registry; the
    call leaves it there with no member, begun by the narrator client. *)
Lemma C2_witness :
  let w := run (init g0) [ev_create_character "s1" "alice" "Wizard" 10] in
  let e := ev_message "s1" "I attack the goblin" (post_raises "timed out") noon in
  (narrator_target w e = Some "main_adventure"
   /\ GAME_ROOMS w !! "main_adventure" = None)
  /\ (exists r, GAME_ROOMS (step w e).1 !! "main_adventure" = Some r
                /\ players r = ∅)
  /\ (exists rest, OPENING_NARRATOR = OPENING_NARRATOR ++ rest).
Proof.
  cbv zeta.
  destruct C2_empty_rooms_are_narrator_made as (Hmade & _ & Hcall & _).
  split; [split; reflexivity |]. split.
  - apply Hcall; reflexivity.
  - apply (Hmade g0 lonely_action "main_adventure" (mkRoom OPENING_NARRATOR ∅));
      reflexivity.
Defined.

(** ** Sessions *)

(** C4, as the code has it. A character-creation request always succeeds,
    whether or not the connection already has a session: the session of the
    connection becomes a fresh one with the requested name, class and hit
    points, an empty inventory and the default room; the other sessions, the
    registry of rooms, the rooms of the socket layer and the generator are
    left as they were, and the requester is sent an empty inventory. *)
Theorem C4_create_character_overwrites (sid name cls : string) (h : Z) (w : World) :
  let result := on_create_character sid name cls h w in
  USERS result.1 !! sid = Some (mkUser name (mkCharacter cls h []) DEFAULT_ROOM)
  /\ delete sid (USERS result.1) = delete sid (USERS w)
  /\ GAME_ROOMS result.1 = GAME_ROOMS w
  /\ sio_rooms result.1 = sio_rooms w
  /\ rng result.1 = rng w
  /\ result.2 = [emit to_requester (character_update [])].
Proof.
  cbn [on_create_character fst snd USERS GAME_ROOMS sio_rooms rng set_USERS].
  rewrite lookup_insert_eq, delete_insert_eq. repeat split.
Qed.

(** The claim of C4 as it is written fails: after [two_in_cave], where the
    connection "s1" is alice the Wizard in the room "cave", a second request
    on "s1" is accepted and replaces name, character sheet and room. *)
Lemma C4_counterexample :
  let w := run (init g0) two_in_cave in
  let w' := (on_create_character "s1" "mallory" "Rogue" 3 w).1 in
  USERS w !! "s1" = Some (mkUser "alice" (mkCharacter "Wizard" 10 []) "cave")
  /\ USERS w' !! "s1"
     = Some (mkUser "mallory" (mkCharacter "Rogue" 3 []) "main_adventure")
  /\ USERS w' !! "s1" <> USERS w !! "s1".
Proof.
  cbv zeta. split; [reflexivity |]. split; [reflexivity |].
  vm_compute. discriminate.
Qed.

(** ** Room listings *)

(** The listing sent on leave only has rooms with at least one member. *)
Lemma room_counts_nonempty_positive rooms id n :
  room_counts_nonempty rooms !! id = Some n -> (1 <= n)%nat.
Proof.
  unfold room_counts_nonempty, room_counts. rewrite lookup_fmap_Some.
  intros (r & <- & Hr). apply map_lookup_filter_Some in Hr as [_ Hne].
  cbn in Hne. destruct (decide (size (players r) = 0)) as [E | E]; [| lia].
  apply size_empty_inv in E. apply leibniz_equiv in E. contradiction.
Qed.

(** The listing of [get_rooms] and of the broadcast on join has every room
    of the registry, with the size of its member set. *)
Lemma room_counts_lookup rooms id :
  room_counts rooms !! id = (fun r => size (players r)) <$> rooms !! id.
Proof. unfold room_counts. apply lookup_fmap. Qed.

(** C7 (every room-list snapshot only has rooms with at least one member):
    after [lonely_action] the registry holds the default room with no
    member. The listing query then reports it with 0 players, and so does the
    broadcast sent when "s1" joins the room "cave". When "s1" then leaves
    "cave", the broadcast sent on leave filters the empty default room out,
    while the listing query still reports it. *)
Theorem C7_listing_shows_empty_room :
  let w := run (init g0) lonely_action in
  let joined := on_join "s1" (Some "cave") w in
  let left := on_leave "s1" joined.1 in
  get_rooms w = {["main_adventure" := 0%nat]}
  /\ nth_error joined.2 1
     = Some (emit to_everyone
               (room_update {["main_adventure" := 0%nat; "cave" := 1%nat]}))
  /\ nth_error left.2 1 = Some (emit to_everyone (room_update ∅))
  /\ get_rooms left.1 = {["main_adventure" := 0%nat]}.
Proof.
  cbv zeta. repeat split; reflexivity.
Qed.

(** ** Joining and leaving *)

(** C6. A join by a connection that has a session sends three emissions, the
    last of which is addressed to the joining connection alone and carries
    "Current tale: ", the last 500 characters of the story that the joined
    room has in the registry at that moment, and "...". That story is the
    one the room had before the join, or the opening line when the join
    created the room. The part shown is a suffix of the story, is never
    longer than 500 characters, is the whole story when the story has at
    most 500 characters and has exactly 500 characters otherwise. *)
Theorem C6_join_story_suffix (sid : string) (data_room : option string)
    (w : World) (u : User) :
  USERS w !! sid = Some u ->
  let room_id := requested_room data_room in
  let result := on_join sid data_room w in
  exists joined shown notice listing,
    GAME_ROOMS result.1 !! room_id = Some joined
    /\ story_state joined
       = match GAME_ROOMS w !! room_id with
         | Some before => story_state before
         | None => OPENING_JOIN
         end
    /\ result.2
       = [notice; listing;
          emit (to_room sid true)
            (message "DM (AI)" ("Current tale: " ++ shown ++ "..."))]
    /\ (exists cut, story_state joined = cut ++ shown)
    /\ (String.length shown <= 500)%nat
    /\ ((String.length (story_state joined) <= 500)%nat ->
        shown = story_state joined)
    /\ ((500 <= String.length (story_state joined))%nat ->
        String.length shown = 500%nat)
    /\ shown = PyStr.last_chars 500 (story_state joined)
    /\ story_of (GAME_ROOMS result.1) room_id = story_state joined.
Proof.
  intros Hu room_id result. subst result.
  rewrite (on_join_session _ _ _ _ Hu). cbv zeta. fold room_id.
  cbn [fst snd GAME_ROOMS].
  assert (Hjoined : exists joined,
             alter (add_player (username u)) room_id
               (create_if_absent room_id OPENING_JOIN (GAME_ROOMS w)) !! room_id
             = Some joined
             /\ story_state joined
                = match GAME_ROOMS w !! room_id with
                  | Some before => story_state before
                  | None => OPENING_JOIN
                  end).
  { rewrite lookup_alter_eq. unfold create_if_absent.
    destruct (GAME_ROOMS w !! room_id) as [before|] eqn:Hb.
    - rewrite Hb. eexists. split; reflexivity.
    - rewrite lookup_insert_eq. eexists. split; reflexivity. }
  destruct Hjoined as (joined & Hlookup & Hstory).
  assert (Hof : story_of
                  (alter (add_player (username u)) room_id
                     (create_if_absent room_id OPENING_JOIN (GAME_ROOMS w)))
                  room_id = story_state joined).
  { unfold story_of. now rewrite Hlookup. }
  exists joined, (PyStr.last_chars 500 (story_state joined)). eexists _, _.
  split; [exact Hlookup |]. split; [exact Hstory |].
  split; [rewrite Hof; reflexivity |].
  split; [apply last_chars_is_suffix |].
  split; [apply last_chars_length |].
  split; [apply last_chars_short |].
  split; [apply last_chars_exact |].
  split; [reflexivity | exact Hof].
Qed.

(** After [long_tale_in_cave] the story of "cave" has 649 characters; "s2"
    joining "cave" again is shown its last 500, all from the long reply. *)
Lemma C6_witness :
  USERS (run (init g0) long_tale_in_cave) !! "s2"
  = Some (mkUser "bob" (mkCharacter "Rogue" 8 []) "cave")
  /\ String.length (story_of (GAME_ROOMS (run (init g0) long_tale_in_cave)) "cave")
     = 649%nat
  /\ nth_error (on_join "s2" (Some "cave") (run (init g0) long_tale_in_cave)).2 2
     = Some (emit (to_room "s2" true)
               (message "DM (AI)"
                  ("Current tale: " ++ repeat_char "x" 500 ++ "..."))).
Proof.
  split; [reflexivity |]. split; [vm_compute; reflexivity |].
  destruct (C6_join_story_suffix "s2" (Some "cave")
              (run (init g0) long_tale_in_cave)
              (mkUser "bob" (mkCharacter "Rogue" 8 []) "cave") eq_refl)
    as (joined & shown & notice & listing & Hlookup & Hstory & Hout & _ & _
        & _ & _ & Hshown & _).
  rewrite Hout. cbn [nth_error]. do 4 f_equal.
  rewrite Hshown, Hstory. vm_compute. reflexivity.
Defined.

(** C9. When a connection whose user name is in the member set of a room A
    joins another room B, the user name is added to the member set of B and
    the room field of the session becomes B, while room A is left in the
    registry exactly as it was: the user name is then in the member sets of
    both rooms, and room A is not deleted. *)
Theorem C9_join_keeps_old_membership (sid : string) (data_room : option string)
    (w : World) (u : User) (A : string) :
  USERS w !! sid = Some u ->
  username u ∈ members_of (GAME_ROOMS w) A ->
  A <> requested_room data_room ->
  let B := requested_room data_room in
  let w' := (on_join sid data_room w).1 in
  USERS w' !! sid = Some (set_room B u)
  /\ members_of (GAME_ROOMS w') B = {[username u]} ∪ members_of (GAME_ROOMS w) B
  /\ GAME_ROOMS w' !! A = GAME_ROOMS w !! A
  /\ is_Some (GAME_ROOMS w' !! A)
  /\ username u ∈ members_of (GAME_ROOMS w') A
  /\ username u ∈ members_of (GAME_ROOMS w') B.
Proof.
  intros Hu HA Hne B w'. subst w'. rewrite (on_join_session _ _ _ _ Hu).
  cbv zeta. fold B. cbn [fst USERS GAME_ROOMS].
  assert (HB : members_of (alter (add_player (username u)) B
                             (create_if_absent B OPENING_JOIN (GAME_ROOMS w))) B
               = {[username u]} ∪ members_of (GAME_ROOMS w) B).
  { unfold members_of. rewrite lookup_alter_eq. unfold create_if_absent.
    destruct (GAME_ROOMS w !! B) as [r|] eqn:Hr.
    - rewrite Hr. reflexivity.
    - rewrite lookup_insert_eq. reflexivity. }
  assert (HlA : alter (add_player (username u)) B
                  (create_if_absent B OPENING_JOIN (GAME_ROOMS w)) !! A
                = GAME_ROOMS w !! A).
  { rewrite lookup_alter_ne by (subst B; congruence).
    now apply create_if_absent_other. }
  split; [apply lookup_insert_eq |]. split; [exact HB |].
  split; [exact HlA |]. split.
  { rewrite HlA. unfold members_of in HA.
    destruct (GAME_ROOMS w !! A); [eauto |].
    now apply not_elem_of_empty in HA. }
  split.
  - unfold members_of at 1. rewrite HlA. exact HA.
  - rewrite HB. apply elem_of_union_l, elem_of_singleton. reflexivity.
Qed.

Lemma C9_witness :
  let w := run (init g0) two_in_cave in
  let w' := (on_join "s1" (Some "tavern") w).1 in
  (USERS w !! "s1" = Some (mkUser "alice" (mkCharacter "Wizard" 10 []) "cave")
   /\ "alice" ∈ members_of (GAME_ROOMS w) "cave"
   /\ "cave" <> "tavern")
  /\ "alice" ∈ members_of (GAME_ROOMS w') "cave"
  /\ "alice" ∈ members_of (GAME_ROOMS w') "tavern".
Proof.
  cbv zeta.
  assert (Hu : USERS (run (init g0) two_in_cave) !! "s1"
               = Some (mkUser "alice" (mkCharacter "Wizard" 10 []) "cave"))
    by reflexivity.
  assert (Hin : "alice" ∈ members_of (GAME_ROOMS (run (init g0) two_in_cave)) "cave").
  { replace (members_of (GAME_ROOMS (run (init g0) two_in_cave)) "cave")
      with ({["alice"; "bob"]} : gset string) by reflexivity.
    set_solver. }
  assert (Hne : "cave" <> requested_room (Some "tavern")) by discriminate.
  split; [split; [exact Hu | split; [exact Hin | discriminate]] |].
  destruct (C9_join_keeps_old_membership "s1" (Some "tavern") _ _ "cave" Hu Hin Hne)
    as (_ & _ & _ & _ & HA & HB).
  split; [exact HA | exact HB].
Defined.

Lemma members_after_leave u rooms :
  members_of (rooms_after_leave u rooms) (room u)
  = members_of rooms (room u) ∖ {[username u]}.
Proof.
  unfold rooms_after_leave, members_of.
  destruct (rooms !! room u) as [r|] eqn:Hr.
  - case_decide as He.
    + rewrite lookup_delete_eq. now rewrite He.
    + rewrite lookup_insert_eq. reflexivity.
  - rewrite Hr. symmetry. apply empty_difference_L.
Qed.

Lemma rooms_after_leave_emptied u rooms :
  members_of rooms (room u) ∖ {[username u]} = ∅ ->
  rooms_after_leave u rooms !! room u = None.
Proof.
  unfold rooms_after_leave, members_of.
  destruct (rooms !! room u) as [r|] eqn:Hr; [| now rewrite Hr].
  intros He. rewrite decide_True by exact He. apply lookup_delete_eq.
Qed.

Lemma handle_message_echo sid msg net now w u :
  USERS w !! sid = Some u ->
  head (handle_message sid msg net now w).2
  = Some (emit (to_room (room u) false) (message (username u) msg)).
Proof.
  intros Hu. unfold handle_message. rewrite Hu.
  destruct (triggers_dm msg); [| reflexivity].
  destruct (call_ai_as_dm (room u) net now w) as [w1 ai_response].
  destruct (mentions_loot ai_response); [| reflexivity].
  destruct (choice "" LOOT_TABLE (rng w1)). reflexivity.
Qed.

(** C10. Handling a leave removes the user name from the member set of the
    room named by the session, deletes that room when this empties it,
    touches no other room and leaves every session, the room field included,
    as it was. A message then sent by the same connection is first emitted to
    that same room id; if it triggers the narrator and the leave had deleted
    the room, the room is back in the registry afterwards with an empty
    member set. *)
Theorem C10_leave_keeps_room_field (sid msg : string) (net : PostOutcome)
    (now : Clock) (w : World) (u : User) :
  USERS w !! sid = Some u ->
  let w1 := (on_leave sid w).1 in
  let after := handle_message sid msg net now w1 in
  USERS w1 = USERS w
  /\ members_of (GAME_ROOMS w1) (room u)
     = members_of (GAME_ROOMS w) (room u) ∖ {[username u]}
  /\ (members_of (GAME_ROOMS w) (room u) ∖ {[username u]} = ∅ ->
      GAME_ROOMS w1 !! room u = None)
  /\ (forall id, id <> room u -> GAME_ROOMS w1 !! id = GAME_ROOMS w !! id)
  /\ head after.2
     = Some (emit (to_room (room u) false) (message (username u) msg))
  /\ (triggers_dm msg = true ->
      GAME_ROOMS w1 !! room u = None ->
      exists r, GAME_ROOMS after.1 !! room u = Some r /\ players r = ∅).
Proof.
  intros Hu w1 after. subst after w1. rewrite (on_leave_session _ _ _ Hu).
  cbv zeta. cbn [fst USERS GAME_ROOMS].
  set (w1 := mkWorld _ _ _ _).
  assert (Hu1 : USERS w1 !! sid = Some u) by exact Hu.
  split; [reflexivity |].
  split; [apply members_after_leave |].
  split; [apply rooms_after_leave_emptied |].
  split; [intros id; apply rooms_after_leave_other |].
  split; [now apply handle_message_echo |].
  intros Ht Habs.
  apply (narrator_creates_empty_room w1 (ev_message sid msg net now) (room u)).
  - cbn [narrator_target]. now rewrite Hu1, Ht.
  - exact Habs.
Qed.

Lemma C10_witness :
  let w := run (init g0) [ev_create_character "s1" "alice" "Wizard" 10;
                          ev_join "s1" (Some "cave")] in
  let w1 := (on_leave "s1" w).1 in
  let after :=
    handle_message "s1" "I cast light" (post_raises "timed out") noon w1 in
  USERS w !! "s1" = Some (mkUser "alice" (mkCharacter "Wizard" 10 []) "cave")
  /\ GAME_ROOMS w1 !! "cave" = None
  /\ USERS w1 !! "s1" = Some (mkUser "alice" (mkCharacter "Wizard" 10 []) "cave")
  /\ head after.2 = Some (emit (to_room "cave" false) (message "alice" "I cast light"))
  /\ GAME_ROOMS after.1 !! "cave" = Some (mkRoom OPENING_NARRATOR ∅).
Proof.
  cbv zeta.
  set (w := run (init g0) _).
  assert (Hu : USERS w !! "s1"
               = Some (mkUser "alice" (mkCharacter "Wizard" 10 []) "cave"))
    by reflexivity.
  destruct (C10_leave_keeps_room_field "s1" "I cast light"
              (post_raises "timed out") noon w _ Hu)
    as (Husers & _ & _ & _ & Hecho & _).
  split; [exact Hu |]. split; [reflexivity |].
  split; [rewrite Husers; exact Hu |].
  split; [exact Hecho | reflexivity].
Defined.

(** ** Loot *)

Lemma choice_loot g :
  In (choice "" LOOT_TABLE g).1 LOOT_TABLE.
Proof.
  unfold choice. cbn [next_raw fst]. apply nth_In.
  apply Nat.mod_upper_bound. discriminate.
Qed.

Lemma mentions_loot_spec reply :
  mentions_loot reply = true
  <-> exists word, In word ["find"; "loot"; "treasure"]
                   /\ PyStr.contains word (PyStr.lower reply) = true.
Proof. unfold mentions_loot. apply any_in_spec. Qed.

(** C5. In a turn that calls the narrator, the string the call returns is
    tested for "find", "loot" and "treasure" in its lowercased text. When one
    of them occurs, one item of the loot table, picked by [random.choice], is
    appended to the inventory of the sender, whose length grows by exactly
    one; no other session changes, and the one [character_update] of the
    turn, carrying the new inventory, is addressed to the connection id of
    the sender. When none occurs, no session changes and no
    [character_update] is emitted. *)
Theorem C5_loot_grant (sid msg : string) (net : PostOutcome) (now : Clock)
    (w : World) (u : User) :
  USERS w !! sid = Some u ->
  triggers_dm msg = true ->
  let narrated := call_ai_as_dm (room u) net now w in
  let reply := narrated.2 in
  let result := handle_message sid msg net now w in
  let echo := emit (to_room (room u) false) (message (username u) msg) in
  let answer := emit (to_room (room u) true) (message "DM (AI)" reply) in
  (mentions_loot reply = true
   <-> exists word, In word ["find"; "loot"; "treasure"]
                    /\ PyStr.contains word (PyStr.lower reply) = true)
  /\ if mentions_loot reply
     then exists item,
         In item LOOT_TABLE
         /\ (item, rng result.1) = choice "" LOOT_TABLE (rng narrated.1)
         /\ inventory_of (USERS result.1) sid = (inventory (character u) ++ [item])%list
         /\ length (inventory_of (USERS result.1) sid)
            = S (length (inventory (character u)))
         /\ delete sid (USERS result.1) = delete sid (USERS w)
         /\ result.2
            = [echo;
               emit (to_room sid true)
                 (character_update (inventory (character u) ++ [item])%list);
               answer]
     else USERS result.1 = USERS w /\ result.2 = [echo; answer].
Proof.
  intros Hu Ht narrated reply result echo answer.
  split; [apply mentions_loot_spec |].
  subst result echo answer reply narrated. unfold handle_message. rewrite Hu, Ht.
  pose proof (call_ai_as_dm_USERS (room u) now w net) as Husers.
  destruct (call_ai_as_dm (room u) net now w) as [w1 ai_response].
  cbn [fst snd] in *.
  destruct (mentions_loot ai_response).
  - pose proof (choice_loot (rng w1)) as Hitem.
    destruct (choice "" LOOT_TABLE (rng w1)) as [item g]. cbn [fst snd] in *.
    assert (Hinv : inventory_of
                     (alter (add_item item) sid (USERS (set_rng w1 g))) sid
                   = (inventory (character u) ++ [item])%list).
    { unfold inventory_of. rewrite lookup_alter_eq. cbn [USERS set_rng].
      rewrite Husers, Hu. reflexivity. }
    exists item. cbn [USERS rng set_USERS]. rewrite Hinv.
    split; [exact Hitem |]. split; [reflexivity |]. split; [reflexivity |].
    split; [rewrite length_app; cbn [length]; lia |].
    split; [| reflexivity].
    rewrite delete_alter_eq. cbn [USERS set_rng]. now rewrite Husers.
  - split; [exact Husers | reflexivity].
Qed.

Lemma C5_witness :
  let w := run (init g0) two_in_cave in
  let result :=
    handle_message "s1" "We search the room"
      (post_response 200 (Ok "You find a sword")) noon w in
  (USERS w !! "s1" = Some (mkUser "alice" (mkCharacter "Wizard" 10 []) "cave")
   /\ triggers_dm "We search the room" = true)
  /\ inventory_of (USERS result.1) "s1" = ["Magic Scroll"]
  /\ inventory_of (USERS result.1) "s2" = []
  /\ nth_error result.2 1
     = Some (emit (to_room "s1" true) (character_update ["Magic Scroll"])).
Proof.
  cbv zeta.
  set (w := run (init g0) two_in_cave).
  assert (Hu : USERS w !! "s1"
               = Some (mkUser "alice" (mkCharacter "Wizard" 10 []) "cave"))
    by reflexivity.
  pose proof (C5_loot_grant "s1" "We search the room"
                (post_response 200 (Ok "You find a sword")) noon w _ Hu eq_refl)
    as [_ H].
  cbv zeta in H.
  assert (Hm : mentions_loot
                 (call_ai_as_dm "cave" (post_response 200 (Ok "You find a sword"))
                    noon w).2 = true) by reflexivity.
  cbn [room] in H. rewrite Hm in H.
  destruct H as (item & _ & Hchoice & Hinv & _ & _ & Hout).
  apply (f_equal fst) in Hchoice. cbn [fst] in Hchoice.
  assert (Hitem : item = "Magic Scroll") by (rewrite Hchoice; reflexivity).
  subst item.
  split; [split; [exact Hu | reflexivity] |].
  split; [exact Hinv |]. split; [reflexivity |].
  rewrite Hout. reflexivity.
Defined.

(** * Further properties of the code *)

(** ** Dice *)

Lemma randint_range a b g :
  (a <= b)%Z ->
  exists v, randint a b g = Ok (v, mkRandom (raw g) (S (pos g)))
            /\ (a <= v <= b)%Z.
Proof.
  intros Hab. unfold randint. destruct (Z.ltb_spec b a) as [Hlt | _]; [lia |].
  cbn [next_raw]. eexists. split; [reflexivity |].
  pose proof (Z.mod_pos_bound (Z.of_nat (raw g (pos g))) (b - a + 1)). lia.
Qed.

Lemma roll_sum_bounds die_type sides rounds : forall g,
  PyStr.int_of_str (PyStr.tail die_type) = Some sides ->
  (1 <= sides)%Z ->
  exists total,
    roll_sum die_type rounds g = Ok (total, mkRandom (raw g) (pos g + rounds))
    /\ (Z.of_nat rounds <= total <= Z.of_nat rounds * sides)%Z.
Proof.
  induction rounds as [|k IH]; intros g Hparse Hsides.
  - exists 0%Z. cbn [roll_sum]. rewrite Nat.add_0_r. destruct g. split; [reflexivity | lia].
  - cbn [roll_sum]. rewrite Hparse.
    destruct (randint_range 1 sides g Hsides) as (v & -> & Hv).
    destruct (IH (mkRandom (raw g) (S (pos g))) Hparse Hsides) as (t & -> & Ht).
    exists (v + t)%Z. cbn [raw pos]. split; [| nia].
    do 3 f_equal. lia.
Qed.

Lemma dice_roll_succeeds die_type sides num modifier g :
  PyStr.int_of_str (PyStr.tail die_type) = Some sides ->
  (1 <= sides)%Z ->
  exists total,
    generate_dice_roll die_type num modifier g
    = Ok (total, mkRandom (raw g) (pos g + Z.to_nat num))
    /\ (Z.of_nat (Z.to_nat num) + modifier <= total
        <= Z.of_nat (Z.to_nat num) * sides + modifier)%Z.
Proof.
  intros Hparse Hsides. unfold generate_dice_roll.
  destruct (roll_sum_bounds die_type sides (Z.to_nat num) g Hparse Hsides)
    as (t & -> & Ht).
  exists (t + modifier)%Z. split; [reflexivity | lia].
Qed.

(** X1. With a die type whose text after the first character is a run of at
    most 4300 digits that reads as a number of sides of at least 1 (the
    cases in which [int_of_str] gives a value), rolling [num >= 0] dice
    succeeds, takes exactly [num] draws from the generator and returns a
    total between [num + modifier] and [num * sides + modifier]. *)
Theorem X1_dice_roll_bounds (die_type : string) (sides num modifier : Z)
    (g : Random) :
  PyStr.int_of_str (PyStr.tail die_type) = Some sides ->
  (1 <= sides)%Z ->
  (0 <= num)%Z ->
  exists total,
    generate_dice_roll die_type num modifier g
    = Ok (total, mkRandom (raw g) (pos g + Z.to_nat num))
    /\ (num + modifier <= total <= num * sides + modifier)%Z.
Proof.
  intros Hparse Hsides Hnum.
  destruct (dice_roll_succeeds die_type sides num modifier g Hparse Hsides)
    as (total & Heq & Hb).
  exists total. split; [exact Heq |].
  rewrite Z2Nat.id in Hb by exact Hnum. exact Hb.
Qed.

Lemma X1_witness :
  (PyStr.int_of_str (PyStr.tail "d6") = Some 6%Z /\ (1 <= 6)%Z /\ (0 <= 3)%Z)
  /\ exists total,
       generate_dice_roll "d6" 3 2 g0 = Ok (total, mkRandom (raw g0) 3)
       /\ (5 <= total <= 20)%Z.
Proof.
  split; [split; [reflexivity | split; lia] |].
  destruct (X1_dice_roll_bounds "d6" 6 3 2 g0 eq_refl) as (total & Heq & Hb);
    [lia | lia |].
  exists total. split; [exact Heq | lia].
Defined.

(** X2. Rolling no dice ([num <= 0]) returns the modifier and takes no draw,
    whatever the die type is: the die type is not even read, so a malformed
    one raises nothing. *)
Theorem X2_no_dice_returns_modifier (die_type : string) (num modifier : Z)
    (g : Random) :
  (num <= 0)%Z ->
  generate_dice_roll die_type num modifier g = Ok (modifier, g).
Proof.
  intros Hnum. unfold generate_dice_roll.
  replace (Z.to_nat num) with 0%nat by lia. reflexivity.
Qed.

Lemma X2_witness :
  (-2 <= 0)%Z /\ generate_dice_roll "sword" (-2) 5 g0 = Ok (5%Z, g0).
Proof.
  split; [lia |]. apply X2_no_dice_returns_modifier. lia.
Defined.

Lemma parse_digits_non_int_char s : forall acc,
  has_non_int_char s = true -> PyStr.parse_digits acc s = None.
Proof.
  induction s as [|c s IH]; intros acc; cbn [has_non_int_char PyStr.parse_digits];
    [discriminate |].
  unfold int_char. destruct (PyStr.digit_of c) as [d|]; [| reflexivity].
  cbn [negb orb]. apply IH.
Qed.

(** X3. Rolling at least one die raises when the text after the first
    character of the die type is empty (as in "d"), has a character that no
    integer literal can have (as in "dx"), or reads as a number of sides
    below 1 (as in "d0"). *)
Theorem X3_dice_roll_raises (die_type : string) (num modifier : Z) (g : Random) :
  (1 <= num)%Z ->
  PyStr.tail die_type = ""
  \/ has_non_int_char (PyStr.tail die_type) = true
  \/ (exists sides, PyStr.int_of_str (PyStr.tail die_type) = Some sides
                    /\ (sides < 1)%Z) ->
  exists msg, generate_dice_roll die_type num modifier g = Raise msg.
Proof.
  intros Hnum Hbad. unfold generate_dice_roll.
  destruct (Z.to_nat num) as [|k] eqn:Hk; [lia |]. cbn [roll_sum].
  destruct Hbad as [Hempty | [Hchar | (sides & Hparse & Hsides)]].
  - rewrite Hempty. eexists; reflexivity.
  - assert (Hnone : PyStr.int_of_str (PyStr.tail die_type) = None).
    { unfold PyStr.int_of_str. destruct (PyStr.tail die_type); [reflexivity |].
      destruct (String.length _ <=? 4300)%nat; [| reflexivity].
      now apply parse_digits_non_int_char. }
    rewrite Hnone. eexists; reflexivity.
  - rewrite Hparse. unfold randint.
    destruct (Z.ltb_spec sides 1) as [_ | Hge]; [| lia]. eexists; reflexivity.
Qed.

Lemma X3_witness :
  ((1 <= 1)%Z /\ PyStr.tail "d" = ""
   /\ has_non_int_char (PyStr.tail "dx") = true
   /\ PyStr.int_of_str (PyStr.tail "d0") = Some 0%Z)
  /\ (exists msg, generate_dice_roll "d" 1 0 g0 = Raise msg)
  /\ (exists msg, generate_dice_roll "dx" 1 0 g0 = Raise msg)
  /\ (exists msg, generate_dice_roll "d0" 1 0 g0 = Raise msg).
Proof.
  split; [repeat split; lia |].
  split; [| split].
  - apply (X3_dice_roll_raises "d" 1 0 g0); [lia |]. left. reflexivity.
  - apply (X3_dice_roll_raises "dx" 1 0 g0); [lia |]. right. left. reflexivity.
  - apply (X3_dice_roll_raises "d0" 1 0 g0); [lia |]. right. right.
    exists 0%Z. split; [reflexivity | lia].
Defined.

(** ** Connections without a session *)

(** X4. Events of a connection that has no session change nothing: a join is
    answered by the hint "Create a character first!" to the requester alone,
    a leave and a message are dropped without any emission, and the narrator
    is not called. *)
Theorem X4_no_session_no_effect (sid msg : string) (data_room : option string)
    (net : PostOutcome) (now : Clock) (w : World) :
  USERS w !! sid = None ->
  on_join sid data_room w
  = (w, [emit to_requester (message "System" "Create a character first!")])
  /\ on_leave sid w = (w, [])
  /\ handle_message sid msg net now w = (w, []).
Proof.
  intros Hu. split; [now apply on_join_no_session |].
  split; [now apply on_leave_no_session |].
  unfold handle_message. now rewrite Hu.
Qed.

Lemma X4_witness :
  USERS (run (init g0) alice_in_cave) !! "s9" = None
  /\ handle_message "s9" "I attack" (post_raises "timed out") noon
       (run (init g0) alice_in_cave)
     = (run (init g0) alice_in_cave, []).
Proof.
  split; [reflexivity |].
  exact (proj2 (proj2 (X4_no_session_no_effect "s9" "I attack" None
                         (post_raises "timed out") noon
                         (run (init g0) alice_in_cave) eq_refl))).
Defined.

(** ** Joining and leaving, composed *)

Lemma add_player_twice name r :
  add_player name (add_player name r) = add_player name r.
Proof.
  unfold add_player. cbn [story_state players]. f_equal.
  apply leibniz_equiv. rewrite (assoc_L (∪)). now rewrite union_idemp_L.
Qed.

Lemma on_join_session_after sid data_room w u :
  USERS w !! sid = Some u ->
  USERS (on_join sid data_room w).1 !! sid
  = Some (set_room (requested_room data_room) u).
Proof.
  intros Hu. rewrite (on_join_session _ _ _ _ Hu). cbv zeta.
  cbn [fst USERS]. apply lookup_insert_eq.
Qed.

(** X5. Joining is idempotent: a connection that joins the room it has just
    joined leaves the whole state as the first join left it, so the member
    count of the room does not count joins. *)
Theorem X5_join_twice (sid : string) (data_room : option string) (w : World) :
  (on_join sid data_room (on_join sid data_room w).1).1
  = (on_join sid data_room w).1.
Proof.
  destruct (USERS w !! sid) as [u|] eqn:Hu.
  - pose proof (on_join_session_after sid data_room w u Hu) as Hu1.
    rewrite (on_join_session _ _ _ _ Hu1).
    rewrite (on_join_session _ _ _ _ Hu). cbv zeta.
    cbn [fst GAME_ROOMS USERS sio_rooms rng username set_room].
    set (B := requested_room data_room).
    f_equal.
    + rewrite (create_if_absent_present B)
        by apply lookup_alter_is_Some, create_if_absent_is_Some.
      apply alter_id. intros x Hx.
      apply lookup_alter_Some in Hx as [[_ (y & _ & ->)] | [Hne _]];
        [apply add_player_twice | congruence].
    + unfold set_room. cbn [username character]. apply insert_insert_eq.
    + apply leibniz_equiv. rewrite (assoc_L (∪)). now rewrite union_idemp_L.
  - rewrite (on_join_no_session _ _ _ Hu). cbn [fst].
    now rewrite (on_join_no_session _ _ _ Hu).
Qed.

Lemma rooms_after_leave_twice u rooms :
  rooms_after_leave u (rooms_after_leave u rooms) = rooms_after_leave u rooms.
Proof.
  destruct (rooms !! room u) as [r|] eqn:Hr.
  - destruct (decide (players r ∖ {[username u]} = ∅)) as [He | He].
    + assert (H1 : rooms_after_leave u rooms = delete (room u) rooms).
      { unfold rooms_after_leave. rewrite Hr. now rewrite decide_True. }
      rewrite H1. unfold rooms_after_leave. now rewrite lookup_delete_eq.
    + assert (H1 : rooms_after_leave u rooms
                   = <[room u := discard_player (username u) r]> rooms).
      { unfold rooms_after_leave. rewrite Hr. now rewrite decide_False. }
      rewrite H1. unfold rooms_after_leave. rewrite lookup_insert_eq.
      assert (Hsame : players (discard_player (username u) r) ∖ {[username u]}
                      = players r ∖ {[username u]}).
      { cbn [players discard_player]. apply leibniz_equiv.
        apply difference_disjoint, disjoint_singleton_r.
        apply not_elem_of_difference. right. now apply elem_of_singleton. }
      rewrite Hsame. rewrite decide_False by exact He.
      rewrite insert_insert_eq. f_equal.
      unfold discard_player at 1. cbn [story_state]. rewrite Hsame. reflexivity.
  - assert (H1 : rooms_after_leave u rooms = rooms).
    { unfold rooms_after_leave. now rewrite Hr. }
    rewrite H1. exact H1.
Qed.

(** X6. After a leave the user name of the session is in the member set of
    the room no more, whichever connection had put it there, and a second
    leave by the same connection leaves the registry as the first one left
    it. *)
Theorem X6_leave_removes_name (sid : string) (w : World) (u : User) :
  USERS w !! sid = Some u ->
  (username u ∉ members_of (GAME_ROOMS (on_leave sid w).1) (room u))
  /\ GAME_ROOMS (on_leave sid (on_leave sid w).1).1
     = GAME_ROOMS (on_leave sid w).1.
Proof.
  intros Hu. split.
  - rewrite (on_leave_session _ _ _ Hu). cbv zeta. cbn [fst GAME_ROOMS].
    rewrite members_after_leave. apply not_elem_of_difference. right.
    now apply elem_of_singleton.
  - assert (Hu1 : USERS (on_leave sid w).1 !! sid = Some u).
    { rewrite (on_leave_session _ _ _ Hu). exact Hu. }
    rewrite (on_leave_session _ _ _ Hu1). cbv zeta. cbn [fst GAME_ROOMS].
    rewrite (on_leave_session _ _ _ Hu). cbv zeta. cbn [fst GAME_ROOMS].
    apply rooms_after_leave_twice.
Qed.

(** After [lonely_action] the default room is in the registry with no
    member; "s1" joins "cave" and leaves it, twice. *)
Lemma X6_witness :
  let w := run (init g0) (lonely_action ++ [ev_join "s1" (Some "cave")]) in
  (USERS w !! "s1" = Some (mkUser "alice" (mkCharacter "Wizard" 10 []) "cave")
   /\ GAME_ROOMS w !! "main_adventure" = Some (mkRoom OPENING_NARRATOR ∅))
  /\ ("alice" ∉ members_of (GAME_ROOMS (on_leave "s1" w).1) "cave")
  /\ GAME_ROOMS (on_leave "s1" (on_leave "s1" w).1).1
     = GAME_ROOMS (on_leave "s1" w).1.
Proof.
  cbv zeta.
  set (w := run (init g0) _).
  assert (Hu : USERS w !! "s1"
               = Some (mkUser "alice" (mkCharacter "Wizard" 10 []) "cave"))
    by reflexivity.
  split; [split; [exact Hu | reflexivity] |].
  exact (X6_leave_removes_name "s1" w _ Hu).
Defined.

(** X7. Join and leave undo each other on the registry: when the registry
    has no empty room and the user name is not yet in the member set of the
    room asked for, a join followed by a leave gives back the registry as it
    was (a room created by the join is deleted again, a room that existed
    keeps its story and gets its member set back). *)
Theorem X7_join_then_leave (sid : string) (data_room : option string)
    (w : World) (u : User) :
  USERS w !! sid = Some u ->
  no_empty_room (GAME_ROOMS w) ->
  username u ∉ members_of (GAME_ROOMS w) (requested_room data_room) ->
  GAME_ROOMS (on_leave sid (on_join sid data_room w).1).1 = GAME_ROOMS w.
Proof.
  intros Hu Hinv Hn.
  pose proof (on_join_session_after sid data_room w u Hu) as Hu1.
  rewrite (on_leave_session _ _ _ Hu1). cbv zeta. cbn [fst GAME_ROOMS].
  rewrite (on_join_session _ _ _ _ Hu). cbv zeta. cbn [fst GAME_ROOMS].
  set (B := requested_room data_room) in *.
  unfold rooms_after_leave. cbn [room username set_room].
  rewrite lookup_alter_eq. unfold members_of in Hn.
  destruct (GAME_ROOMS w !! B) as [r|] eqn:Hr.
  - rewrite (create_if_absent_present B) by eauto. rewrite Hr.
    cbn [fmap option_fmap option_map add_player players story_state].
    assert (Hback : ({[username u]} ∪ players r) ∖ {[username u]} = players r).
    { apply leibniz_equiv. rewrite difference_union_distr_l.
      rewrite difference_diag, (left_id ∅ (∪)).
      apply difference_disjoint. now apply disjoint_singleton_r. }
    rewrite Hback. rewrite decide_False by exact (Hinv _ _ Hr).
    unfold discard_player, add_player. cbn [players story_state]. rewrite Hback.
    rewrite insert_alter_eq. destruct r as [story ps]. now apply insert_id.
  - rewrite create_if_absent_absent by exact Hr. rewrite lookup_insert_eq.
    cbn [fmap option_fmap option_map add_player players story_state].
    assert (Hback : ({[username u]} ∪ ∅) ∖ {[username u]} = (∅ : gset string)).
    { apply leibniz_equiv. rewrite (right_id ∅ (∪)). apply difference_diag. }
    rewrite decide_True by exact Hback.
    rewrite delete_alter_eq, delete_insert_eq. now apply delete_id.
Qed.

Lemma X7_witness :
  (USERS (run (init g0) two_in_cave) !! "s1"
   = Some (mkUser "alice" (mkCharacter "Wizard" 10 []) "cave")
   /\ GAME_ROOMS (run (init g0) two_in_cave)
      = {["cave" := mkRoom OPENING_JOIN {["alice"; "bob"]}]})
  /\ GAME_ROOMS (on_leave "s1" (on_join "s1" (Some "tavern")
                                  (run (init g0) two_in_cave)).1).1
     = GAME_ROOMS (run (init g0) two_in_cave).
Proof.
  assert (Hu : USERS (run (init g0) two_in_cave) !! "s1"
               = Some (mkUser "alice" (mkCharacter "Wizard" 10 []) "cave"))
    by reflexivity.
  assert (Hrooms : GAME_ROOMS (run (init g0) two_in_cave)
                   = {["cave" := mkRoom OPENING_JOIN {["alice"; "bob"]}]})
    by reflexivity.
  split; [split; [exact Hu | exact Hrooms] |].
  apply (X7_join_then_leave "s1" (Some "tavern") _ _ Hu).
  - rewrite Hrooms. intros id r Hr. apply lookup_singleton_Some in Hr as [_ <-].
    cbn [players]. intros He.
    assert (Hin : "alice" ∈ ({["alice"; "bob"]} : gset string))
      by (apply elem_of_union_l, elem_of_singleton; reflexivity).
    rewrite He in Hin. now apply not_elem_of_empty in Hin.
  - rewrite Hrooms. unfold members_of.
    replace (({["cave" := mkRoom OPENING_JOIN {["alice"; "bob"]}]}
               : gmap string Room) !! requested_room (Some "tavern"))
      with (@None Room) by reflexivity.
    apply not_elem_of_empty.
Defined.

(** ** Stories only grow *)


(** X8. No event rewrites a story: for a room that is in the registry before
    and after an event, the story after the event is the story before it
    with, possibly, something appended. *)
Theorem X8_story_append_only (w : World) (e : Event) (id : string) (r r' : Room) :
  GAME_ROOMS w !! id = Some r ->
  GAME_ROOMS (step w e).1 !! id = Some r' ->
  exists suffix, story_state r' = story_state r ++ suffix.
Proof.
  intros Hr Hr'. pose proof (grown_step w e id r' Hr') as H.
  rewrite Hr in H. exact H.
Qed.

Lemma X8_witness :
  let w := run (init g0) two_in_cave in
  let e := ev_message "s1" "We roll for initiative"
             (post_response 200 (Ok " The door creaks. ")) noon in
  (GAME_ROOMS w !! "cave" = Some (mkRoom OPENING_JOIN {["alice"; "bob"]})
   /\ GAME_ROOMS (step w e).1 !! "cave"
      = Some (mkRoom (OPENING_JOIN ++ NEWLINE ++ "12:00: The door creaks.")
                {["alice"; "bob"]}))
  /\ exists suffix,
       OPENING_JOIN ++ NEWLINE ++ "12:00: The door creaks."
       = OPENING_JOIN ++ suffix.
Proof.
  cbv zeta. split; [split; reflexivity |].
  refine (X8_story_append_only (run (init g0) two_in_cave)
           (ev_message "s1" "We roll for initiative"
              (post_response 200 (Ok " The door creaks. ")) noon)
           "cave"
           (mkRoom OPENING_JOIN {["alice"; "bob"]})
           (mkRoom (OPENING_JOIN ++ NEWLINE ++ "12:00: The door creaks.")
              {["alice"; "bob"]})
           _ _); vm_compute; reflexivity.
Defined.

(** X9. In every state reached from the start, the story of every room in
    the registry begins with the opening line it was created with: the one
    of the narrator client or the one of the join handler. *)
Theorem X9_stories_begin_with_opening (g : Random) (es : list Event)
    (id : string) (r : Room) :
  GAME_ROOMS (run (init g) es) !! id = Some r ->
  (exists rest, story_state r = OPENING_NARRATOR ++ rest)
  \/ (exists rest, story_state r = OPENING_JOIN ++ rest).
Proof.
  assert (Hrun : forall es w,
             map_Forall (fun _ r => opened r) (GAME_ROOMS w) ->
             map_Forall (fun _ r => opened r) (GAME_ROOMS (run w es))).
  { clear. induction es as [|e es IH]; intros w Hw; [exact Hw |].
    cbn [run fold_left]. apply IH. intros id r' Hr'.
    pose proof (grown_step w e id r' Hr') as H.
    destruct (GAME_ROOMS w !! id) as [r0|] eqn:Hr0; [| exact H].
    exact (opened_extends r0 r' (Hw id r0 Hr0) H). }
  intros Hr. apply (Hrun es (init g)) in Hr; [exact Hr |].
  intros id0 r0 H0. cbn [init GAME_ROOMS] in H0. now rewrite lookup_empty in H0.
Qed.

Lemma X9_witness :
  GAME_ROOMS (run (init g0) lonely_action) !! "main_adventure"
  = Some (mkRoom OPENING_NARRATOR ∅)
  /\ ((exists rest, OPENING_NARRATOR = OPENING_NARRATOR ++ rest)
      \/ (exists rest, OPENING_NARRATOR = OPENING_JOIN ++ rest)).
Proof.
  split; [reflexivity |].
  exact (X9_stories_begin_with_opening g0 lonely_action "main_adventure"
           (mkRoom OPENING_NARRATOR ∅) eq_refl).
Defined.

(** ** What a message leaves alone *)

Lemma members_of_create_if_absent rid story rooms id :
  members_of (create_if_absent rid story rooms) id = members_of rooms id.
Proof.
  unfold members_of, create_if_absent.
  destruct (rooms !! rid) as [r|] eqn:Hr; [reflexivity |].
  destruct (decide (rid = id)) as [<- | Hne].
  - now rewrite lookup_insert_eq, Hr.
  - now rewrite lookup_insert_ne.
Qed.

Lemma members_of_narrator rid net now w id :
  members_of (GAME_ROOMS (call_ai_as_dm rid net now w).1) id
  = members_of (GAME_ROOMS w) id.
Proof.
  rewrite <- (members_of_create_if_absent rid OPENING_NARRATOR (GAME_ROOMS w) id).
  pose proof (call_ai_as_dm_players rid now w net id) as H.
  unfold members_of.
  destruct (GAME_ROOMS (call_ai_as_dm rid net now w).1 !! id),
           (create_if_absent rid OPENING_NARRATOR (GAME_ROOMS w) !! id);
    cbn in H; congruence.
Qed.

Lemma call_ai_as_dm_sio_rooms rid net now w :
  sio_rooms (call_ai_as_dm rid net now w).1 = sio_rooms w.
Proof.
  destruct (failed net) eqn:Hf.
  - now rewrite call_ai_as_dm_failed_state.
  - destruct net as [msg | status [text | msg]]; simpl in Hf; try discriminate.
    + destruct (Z.eqb_spec status 200) as [-> | Hne]; simpl in Hf; [| discriminate].
      now rewrite call_ai_as_dm_success.
    + destruct (Z.eqb_spec status 200); simpl in Hf; discriminate.
Qed.

(** The sessions after a message: only the inventory of the sender can have
    changed, by one item appended. *)
Lemma handle_message_USERS sid msg net now w :
  USERS (handle_message sid msg net now w).1 = USERS w
  \/ exists item,
       USERS (handle_message sid msg net now w).1
       = alter (add_item item) sid (USERS w).
Proof.
  unfold handle_message. destruct (USERS w !! sid) as [u|]; [| now left].
  destruct (triggers_dm msg); [| now left].
  pose proof (call_ai_as_dm_USERS (room u) now w net) as Husers.
  destruct (call_ai_as_dm (room u) net now w) as [w1 ai_response].
  cbn [fst] in Husers.
  destruct (mentions_loot ai_response); [| now left].
  destruct (choice "" LOOT_TABLE (rng w1)) as [item g]. right. exists item.
  cbn [fst USERS set_USERS set_rng]. now rewrite Husers.
Qed.

(** X10. Handling a message changes no member set, no room of the socket
    layer and nobody's name, room, class or hit points, and it leaves the
    sessions of the other connections exactly as they were; all it can
    change in a session is the inventory of the sender. *)
Theorem X10_message_frame (sid msg : string) (net : PostOutcome) (now : Clock)
    (w : World) :
  let w' := (handle_message sid msg net now w).1 in
  (forall id, members_of (GAME_ROOMS w') id = members_of (GAME_ROOMS w) id)
  /\ (forall sid', identity_of <$> USERS w' !! sid' = identity_of <$> USERS w !! sid')
  /\ delete sid (USERS w') = delete sid (USERS w)
  /\ sio_rooms w' = sio_rooms w.
Proof.
  cbv zeta. split; [| split; [| split]].
  - intros id. destruct (narrator_target w (ev_message sid msg net now)) as [rid|] eqn:Ht.
    + cbn [narrator_target] in Ht.
      destruct (USERS w !! sid) as [u|] eqn:Hu; [| discriminate].
      destruct (triggers_dm msg) eqn:Hm; [| discriminate].
      rewrite (handle_message_rooms _ _ _ _ _ _ Hu Hm). apply members_of_narrator.
    + now rewrite handle_message_quiet.
  - intros sid'. destruct (handle_message_USERS sid msg net now w) as [-> | [item ->]];
      [reflexivity |].
    rewrite lookup_alter. case_decide as Hs; [subst sid' | reflexivity].
    now destruct (USERS w !! sid).
  - destruct (handle_message_USERS sid msg net now w) as [-> | [item ->]];
      [reflexivity | apply delete_alter_eq].
  - unfold handle_message. destruct (USERS w !! sid) as [u|]; [| reflexivity].
    destruct (triggers_dm msg); [| reflexivity].
    pose proof (call_ai_as_dm_sio_rooms (room u) net now w) as Hs.
    destruct (call_ai_as_dm (room u) net now w) as [w1 ai_response].
    destruct (mentions_loot ai_response); [| exact Hs].
    destruct (choice "" LOOT_TABLE (rng w1)). exact Hs.
Qed.

(** X11. No event removes a session: a connection that has a session keeps
    one through every sequence of events. *)
Theorem X11_sessions_persist (es : list Event) (w : World) (sid : string) :
  is_Some (USERS w !! sid) -> is_Some (USERS (run w es) !! sid).
Proof.
  revert w. induction es as [|e es IH]; intros w Hs; [exact Hs |].
  cbn [run fold_left]. apply IH.
  destruct e as [sid0 name cls h | sid0 d | sid0 | sid0 msg net now]; cbn [step].
  - cbn [on_create_character fst USERS set_USERS].
    apply lookup_insert_is_Some'. now right.
  - destruct (USERS w !! sid0) as [u|] eqn:Hu.
    + rewrite (on_join_session _ _ _ _ Hu). cbv zeta. cbn [fst USERS].
      apply lookup_insert_is_Some'. now right.
    + now rewrite on_join_no_session.
  - destruct (USERS w !! sid0) as [u|] eqn:Hu.
    + now rewrite (on_leave_session _ _ _ Hu).
    + now rewrite on_leave_no_session.
  - destruct (handle_message_USERS sid0 msg net now w) as [-> | [item ->]];
      [exact Hs | now apply lookup_alter_is_Some].
Qed.

Lemma X11_witness :
  is_Some (USERS (run (init g0) alice_in_cave) !! "s1")
  /\ is_Some (USERS (run (run (init g0) alice_in_cave)
                       [ev_leave "s1"; ev_leave "s1"]) !! "s1").
Proof.
  assert (Hs : is_Some (USERS (run (init g0) alice_in_cave) !! "s1"))
    by (vm_compute; eexists; reflexivity).
  split; [exact Hs |].
  exact (X11_sessions_persist [ev_leave "s1"; ev_leave "s1"] _ "s1" Hs).
Defined.

(** ** Room listings of the handlers *)

Lemma room_counts_nonempty_lookup rooms id n :
  room_counts_nonempty rooms !! id = Some n
  <-> members_of rooms id <> ∅ /\ n = size (members_of rooms id).
Proof.
  unfold room_counts_nonempty, room_counts, members_of.
  rewrite lookup_fmap_Some. split.
  - intros (r & <- & Hr). apply map_lookup_filter_Some in Hr as [Hr Hne].
    rewrite Hr. split; [exact Hne | reflexivity].
  - intros [Hne ->]. destruct (rooms !! id) as [r|] eqn:Hr; [| congruence].
    exists r. split; [reflexivity |]. apply map_lookup_filter_Some. now split.
Qed.

Lemma size_nonempty (s : gset string) : s <> ∅ -> (1 <= size s)%nat.
Proof.
  intros Hne. destruct (decide (size s = 0)) as [E | E]; [| lia].
  apply size_empty_inv in E. apply leibniz_equiv in E. contradiction.
Qed.

(** X12. The room list broadcast by a leave has exactly the room ids whose
    member set is not empty once the leave is done, each with the size of
    its member set, which is at least 1. *)
Theorem X12_leave_listing (sid : string) (w : World) (u : User) :
  USERS w !! sid = Some u ->
  exists notice listing,
    (on_leave sid w).2 = [notice; emit to_everyone (room_update listing)]
    /\ forall id n,
         listing !! id = Some n
         <-> members_of (GAME_ROOMS (on_leave sid w).1) id <> ∅
             /\ n = size (members_of (GAME_ROOMS (on_leave sid w).1) id)
             /\ (1 <= n)%nat.
Proof.
  intros Hu. rewrite (on_leave_session _ _ _ Hu). cbv zeta. cbn [fst snd GAME_ROOMS].
  eexists _, _. split; [reflexivity |]. intros id n.
  rewrite room_counts_nonempty_lookup. split.
  - intros [Hne ->]. split; [exact Hne |]. split; [reflexivity |].
    now apply size_nonempty.
  - intros (Hne & -> & _). now split.
Qed.

Lemma X12_witness :
  USERS (run (init g0) two_in_cave) !! "s1"
  = Some (mkUser "alice" (mkCharacter "Wizard" 10 []) "cave")
  /\ exists notice listing,
       (on_leave "s1" (run (init g0) two_in_cave)).2
       = [notice; emit to_everyone (room_update listing)]
       /\ listing !! "cave" = Some 1%nat.
Proof.
  split; [reflexivity |].
  destruct (X12_leave_listing "s1" (run (init g0) two_in_cave)
              (mkUser "alice" (mkCharacter "Wizard" 10 []) "cave") eq_refl)
    as (notice & listing & Hout & Hl).
  exists notice, listing. split; [exact Hout |]. apply Hl.
  assert (Hm : members_of (GAME_ROOMS (on_leave "s1" (run (init g0) two_in_cave)).1)
                 "cave" = {["bob"]}) by reflexivity.
  rewrite Hm. split.
  - intros He. assert (Hin : "bob" ∈ ({["bob"]} : gset string))
      by (apply elem_of_singleton; reflexivity).
    rewrite He in Hin. now apply not_elem_of_empty in Hin.
  - rewrite size_singleton. split; [reflexivity | lia].
Defined.

Lemma room_counts_nonempty_all rooms :
  no_empty_room rooms -> room_counts_nonempty rooms = room_counts rooms.
Proof.
  intros Hinv. unfold room_counts_nonempty. f_equal.
  apply map_filter_id. intros id r Hr. exact (Hinv id r Hr).
Qed.

(** X13. When the registry has no empty room, the room list broadcast by a
    leave is what the listing query returns right after the leave. *)
Theorem X13_leave_listing_is_query (sid : string) (w : World) (u : User) :
  USERS w !! sid = Some u ->
  no_empty_room (GAME_ROOMS w) ->
  nth_error (on_leave sid w).2 1
  = Some (emit to_everyone (room_update (get_rooms (on_leave sid w).1))).
Proof.
  intros Hu Hinv. rewrite (on_leave_session _ _ _ Hu). cbv zeta.
  cbn [fst snd nth_error]. unfold get_rooms. cbn [GAME_ROOMS].
  rewrite room_counts_nonempty_all; [reflexivity |].
  now apply no_empty_room_leave.
Qed.

Lemma X13_witness :
  (USERS (run (init g0) two_in_cave) !! "s1"
   = Some (mkUser "alice" (mkCharacter "Wizard" 10 []) "cave")
   /\ GAME_ROOMS (run (init g0) two_in_cave)
      = {["cave" := mkRoom OPENING_JOIN {["alice"; "bob"]}]})
  /\ nth_error (on_leave "s1" (run (init g0) two_in_cave)).2 1
     = Some (emit to_everyone
               (room_update
                  (get_rooms (on_leave "s1" (run (init g0) two_in_cave)).1))).
Proof.
  assert (Hu : USERS (run (init g0) two_in_cave) !! "s1"
               = Some (mkUser "alice" (mkCharacter "Wizard" 10 []) "cave"))
    by reflexivity.
  assert (Hrooms : GAME_ROOMS (run (init g0) two_in_cave)
                   = {["cave" := mkRoom OPENING_JOIN {["alice"; "bob"]}]})
    by reflexivity.
  split; [split; [exact Hu | exact Hrooms] |].
  apply (X13_leave_listing_is_query "s1" _ _ Hu).
  rewrite Hrooms. intros id r Hr. apply lookup_singleton_Some in Hr as [_ <-].
  cbn [players]. intros He.
  assert (Hin : "alice" ∈ ({["alice"; "bob"]} : gset string))
    by (apply elem_of_union_l, elem_of_singleton; reflexivity).
  rewrite He in Hin. now apply not_elem_of_empty in Hin.
Defined.

(** X14. The room list broadcast by a join is what the listing query returns
    right after the join, and it shows the joined room with the number of
    distinct names made of the joiner and the members it had, which is at
    least 1. *)
Theorem X14_join_listing (sid : string) (data_room : option string)
    (w : World) (u : User) :
  USERS w !! sid = Some u ->
  let B := requested_room data_room in
  let w' := (on_join sid data_room w).1 in
  nth_error (on_join sid data_room w).2 1
  = Some (emit to_everyone (room_update (get_rooms w')))
  /\ get_rooms w' !! B
     = Some (size ({[username u]} ∪ members_of (GAME_ROOMS w) B))
  /\ (1 <= size ({[username u]} ∪ members_of (GAME_ROOMS w) B))%nat.
Proof.
  intros Hu B w'. subst w'. rewrite (on_join_session _ _ _ _ Hu). cbv zeta.
  fold B. cbn [fst snd nth_error]. unfold get_rooms. cbn [GAME_ROOMS].
  split; [reflexivity |]. split.
  - rewrite room_counts_lookup, lookup_alter_eq.
    unfold members_of, create_if_absent.
    destruct (GAME_ROOMS w !! B) as [r|] eqn:Hr.
    + rewrite Hr. reflexivity.
    + rewrite lookup_insert_eq. reflexivity.
  - apply size_nonempty. intros He.
    assert (Hin : username u ∈ {[username u]} ∪ members_of (GAME_ROOMS w) B)
      by (apply elem_of_union_l, elem_of_singleton; reflexivity).
    rewrite He in Hin. now apply not_elem_of_empty in Hin.
Qed.

Lemma X14_witness :
  USERS (run (init g0) two_in_cave) !! "s1"
  = Some (mkUser "alice" (mkCharacter "Wizard" 10 []) "cave")
  /\ get_rooms (on_join "s1" (Some "cave") (run (init g0) two_in_cave)).1 !! "cave"
     = Some 2%nat.
Proof.
  split; [reflexivity |].
  destruct (X14_join_listing "s1" (Some "cave") (run (init g0) two_in_cave)
              (mkUser "alice" (mkCharacter "Wizard" 10 []) "cave") eq_refl)
    as (_ & Hcount & _).
  etransitivity; [exact Hcount |]. vm_compute. reflexivity.
Defined.

(** ** A whole turn *)

Lemma handle_message_reply sid msg net now w u :
  USERS w !! sid = Some u ->
  triggers_dm msg = true ->
  last (handle_message sid msg net now w).2
  = Some (emit (to_room (room u) true)
            (message "DM (AI)" (call_ai_as_dm (room u) net now w).2)).
Proof.
  intros Hu Ht. unfold handle_message. rewrite Hu, Ht.
  destruct (call_ai_as_dm (room u) net now w) as [w1 ai_response].
  destruct (mentions_loot ai_response); [| reflexivity].
  destruct (choice "" LOOT_TABLE (rng w1)). reflexivity.
Qed.

(** X15. In a turn whose narrator call succeeds, the last emission is the
    reply, sent as "DM (AI)" to the whole room of the sender, the sender
    included, and that same text, die-roll annotation included, is what the
    story of the room gains after a line break, the time and ": ". The reply
    begins with the stripped text of the service. *)
Theorem X15_turn_stores_what_it_broadcasts (sid msg text : string) (now : Clock)
    (w : World) (u : User) :
  USERS w !! sid = Some u ->
  triggers_dm msg = true ->
  let result := handle_message sid msg (post_response 200 (Ok text)) now w in
  exists reply,
    last result.2
    = Some (emit (to_room (room u) true) (message "DM (AI)" reply))
    /\ story_of (GAME_ROOMS result.1) (room u)
       = story_of (create_if_absent (room u) OPENING_NARRATOR (GAME_ROOMS w))
           (room u)
         ++ NEWLINE ++ strftime_HM now ++ ": " ++ reply
    /\ (exists annotation, reply = PyStr.strip text ++ annotation).
Proof.
  intros Hu Ht result. subst result.
  exists (call_ai_as_dm (room u) (post_response 200 (Ok text)) now w).2.
  split; [now apply handle_message_reply |].
  rewrite (handle_message_rooms _ _ _ _ _ _ Hu Ht).
  rewrite call_ai_as_dm_success. cbv zeta. cbn [fst snd GAME_ROOMS]. split.
  - unfold story_of. rewrite lookup_alter_eq.
    destruct (create_if_absent_is_Some (room u) OPENING_NARRATOR (GAME_ROOMS w))
      as [r Hr].
    rewrite Hr. reflexivity.
  - destruct (implies_roll (PyStr.strip text)).
    + eexists; reflexivity.
    + exists "". now rewrite append_empty_r.
Qed.

Lemma X15_witness :
  let w := run (init g0) two_in_cave in
  let result :=
    handle_message "s2" "I attack the troll"
      (post_response 200 (Ok "  The troll dodges your attack. ")) noon w in
  (USERS w !! "s2" = Some (mkUser "bob" (mkCharacter "Rogue" 8 []) "cave")
   /\ triggers_dm "I attack the troll" = true)
  /\ last result.2
     = Some (emit (to_room "cave" true)
               (message "DM (AI)"
                  "The troll dodges your attack. (DM rolls: 4 on d20)"))
  /\ story_of (GAME_ROOMS result.1) "cave"
     = OPENING_JOIN ++ NEWLINE
       ++ "12:00: The troll dodges your attack. (DM rolls: 4 on d20)".
Proof.
  cbv zeta.
  set (w := run (init g0) two_in_cave).
  assert (Hu : USERS w !! "s2" = Some (mkUser "bob" (mkCharacter "Rogue" 8 []) "cave"))
    by reflexivity.
  split; [split; [exact Hu | reflexivity] |].
  destruct (X15_turn_stores_what_it_broadcasts "s2" "I attack the troll"
              "  The troll dodges your attack. " noon w _ Hu eq_refl)
    as (reply & Hlast & Hstory & _).
  assert (Hreply : reply = "The troll dodges your attack. (DM rolls: 4 on d20)").
  { assert (H : Some (emit (to_room "cave" true) (message "DM (AI)" reply))
                = Some (emit (to_room "cave" true)
                          (message "DM (AI)"
                             "The troll dodges your attack. (DM rolls: 4 on d20)"))).
    { etransitivity; [symmetry; exact Hlast |]. vm_compute. reflexivity. }
    now injection H. }
  subst reply. split; [exact Hlast |].
  etransitivity; [exact Hstory |]. vm_compute. reflexivity.
Defined.

(** X16. In a turn whose narrator call fails, the room is still answered: the
    last emission is the diagnostic text, sent as "DM (AI)" to the whole room
    of the sender, and the registry gains no story text (it is as before,
    with the room of the sender ensured). *)
Theorem X16_failed_turn_is_answered (sid msg : string) (net : PostOutcome)
    (now : Clock) (w : World) (u : User) :
  USERS w !! sid = Some u ->
  triggers_dm msg = true ->
  failed net = true ->
  let result := handle_message sid msg net now w in
  exists diagnostic,
    last result.2
    = Some (emit (to_room (room u) true) (message "DM (AI)" diagnostic))
    /\ (PyStr.startswith "DM Exception: " diagnostic = true
        \/ PyStr.startswith "DM Error: " diagnostic = true)
    /\ GAME_ROOMS result.1
       = create_if_absent (room u) OPENING_NARRATOR (GAME_ROOMS w).
Proof.
  intros Hu Ht Hf result. subst result.
  exists (call_ai_as_dm (room u) net now w).2.
  split; [now apply handle_message_reply |].
  split; [now apply call_ai_as_dm_failed_text |].
  rewrite (handle_message_rooms _ _ _ _ _ _ Hu Ht).
  now rewrite call_ai_as_dm_failed_state.
Qed.

Lemma X16_witness :
  let w := run (init g0) two_in_cave in
  let result :=
    handle_message "s2" "I attack the troll" (post_response 429 (Ok "Too Many Requests")) noon w in
  (USERS w !! "s2" = Some (mkUser "bob" (mkCharacter "Rogue" 8 []) "cave")
   /\ triggers_dm "I attack the troll" = true
   /\ failed (post_response 429 (Ok "Too Many Requests")) = true)
  /\ last result.2
     = Some (emit (to_room "cave" true)
               (message "DM (AI)" "DM Error: 429 - Check API key/quotas."))
  /\ GAME_ROOMS result.1 = GAME_ROOMS w.
Proof.
  cbv zeta.
  set (w := run (init g0) two_in_cave).
  assert (Hu : USERS w !! "s2" = Some (mkUser "bob" (mkCharacter "Rogue" 8 []) "cave"))
    by reflexivity.
  split; [split; [exact Hu | split; reflexivity] |].
  destruct (X16_failed_turn_is_answered "s2" "I attack the troll"
              (post_response 429 (Ok "Too Many Requests")) noon w _ Hu eq_refl eq_refl)
    as (diagnostic & Hlast & _ & Hrooms).
  assert (Hd : diagnostic = "DM Error: 429 - Check API key/quotas.").
  { assert (H : Some (emit (to_room "cave" true) (message "DM (AI)" diagnostic))
                = Some (emit (to_room "cave" true)
                          (message "DM (AI)"
                             "DM Error: 429 - Check API key/quotas."))).
    { etransitivity; [symmetry; exact Hlast |]. vm_compute. reflexivity. }
    now injection H. }
  subst diagnostic. split; [exact Hlast |].
  etransitivity; [exact Hrooms |]. vm_compute. reflexivity.
Defined.

(** ** Start-up configuration *)

Lemma or_prompt_set v stdin :
  is_set v = true -> exists k, v = Some k /\ or_prompt v stdin = Ok (k, stdin).
Proof.
  destruct v as [[|c s]|]; try discriminate. intros _. eexists; split; reflexivity.
Qed.

(** X17. When the module gets past its configuration, the API key and the
    model are both non-empty; a setting that is non-empty in the environment
    is taken from there as it is. *)
Theorem X17_config_nonempty (env_key env_model : option string)
    (stdin rest : list string) (key model : string) :
  read_config env_key env_model stdin = Ok (key, model, rest) ->
  key <> "" /\ model <> ""
  /\ (is_set env_key = true -> env_key = Some key)
  /\ (is_set env_model = true -> env_model = Some model).
Proof.
  unfold read_config.
  destruct (or_prompt env_key stdin) as [[k stdin1]|] eqn:Hk; [| discriminate].
  destruct (or_prompt env_model stdin1) as [[m stdin2]|] eqn:Hm; [| discriminate].
  destruct k as [|ck k]; [discriminate |]. destruct m as [|cm m]; [discriminate |].
  intros H. injection H as <- <- <-.
  split; [discriminate |]. split; [discriminate |]. split.
  - intros Hs. destruct (or_prompt_set _ stdin Hs) as (k0 & -> & Hk0). congruence.
  - intros Hs. destruct (or_prompt_set _ stdin1 Hs) as (m0 & -> & Hm0). congruence.
Qed.

Lemma X17_witness :
  read_config None (Some "gpt") ["  sk-123  "; "unread"]
  = Ok ("sk-123", "gpt", ["unread"])
  /\ "sk-123" <> "" /\ "gpt" <> "".
Proof.
  split; [reflexivity |].
  destruct (X17_config_nonempty None (Some "gpt") ["  sk-123  "; "unread"]
              ["unread"] "sk-123" "gpt" eq_refl) as (Hk & Hm & _).
  split; [exact Hk | exact Hm].
Defined.

(** X18. With both settings non-empty in the environment, the configuration
    is exactly these two values and nothing is read from standard input. *)
Theorem X18_config_from_environment (env_key env_model : option string)
    (stdin : list string) :
  is_set env_key = true ->
  is_set env_model = true ->
  exists key model,
    env_key = Some key /\ env_model = Some model
    /\ read_config env_key env_model stdin = Ok (key, model, stdin).
Proof.
  intros Hk Hm. unfold read_config.
  destruct (or_prompt_set _ stdin Hk) as (k & -> & ->).
  destruct (or_prompt_set _ stdin Hm) as (m & -> & ->).
  exists k, m. split; [reflexivity |]. split; [reflexivity |].
  destruct k; [discriminate |]. destruct m; [discriminate |]. reflexivity.
Qed.

Lemma X18_witness :
  (is_set (Some " sk-123") = true /\ is_set (Some "gpt") = true)
  /\ read_config (Some " sk-123") (Some "gpt") ["unread"]
     = Ok (" sk-123", "gpt", ["unread"]).
Proof.
  split; [split; reflexivity |].
  destruct (X18_config_from_environment (Some " sk-123") (Some "gpt") ["unread"]
              eq_refl eq_refl) as (k & m & Hk & Hm & Hcfg).
  injection Hk as <-. injection Hm as <-. exact Hcfg.
Defined.

(** X19. When the API key is unset or empty in the environment it is asked
    for on standard input: at the end of input the module stops with
    [EOFError], and on a blank answer it raises [ValueError] ("API key and
    model required."), though only after it has also obtained the model
    (from the environment here). *)
Theorem X19_config_prompt_failures (env_key env_model : option string)
    (line : string) (stdin : list string) :
  is_set env_key = false ->
  read_config env_key env_model [] = Raise "EOF when reading a line"
  /\ (is_set env_model = true ->
      PyStr.strip line = "" ->
      read_config env_key env_model (line :: stdin)
      = Raise "API key and model required.").
Proof.
  intros Hk. split.
  - unfold read_config. destruct env_key as [[|c s]|]; try discriminate; reflexivity.
  - intros Hm Hblank. unfold read_config.
    assert (Hp : or_prompt env_key (line :: stdin) = Ok ("", stdin)).
    { destruct env_key as [[|c s]|]; try discriminate; cbn; now rewrite Hblank. }
    rewrite Hp. destruct (or_prompt_set _ stdin Hm) as (m & -> & ->).
    reflexivity.
Qed.

Lemma X19_witness :
  is_set (Some "") = false
  /\ read_config (Some "") None [] = Raise "EOF when reading a line"
  /\ read_config (Some "") (Some "gpt") ["   "; "unread"]
     = Raise "API key and model required.".
Proof.
  split; [reflexivity |].
  destruct (X19_config_prompt_failures (Some "") None "" [] eq_refl) as [Heof _].
  split; [exact Heof |].
  apply (proj2 (X19_config_prompt_failures (Some "") (Some "gpt") "   " ["unread"]
                  eq_refl)); reflexivity.
Defined.

(** ** Which messages reach the narrator *)

Section TriggerFacts.

Lemma lower_append a b : PyStr.lower (a ++ b) = PyStr.lower a ++ PyStr.lower b.
Proof.
  induction a as [|c a IH]; [reflexivity |].
  change (String (PyStr.lower_char c) (PyStr.lower (a ++ b))
          = String (PyStr.lower_char c) (PyStr.lower a ++ PyStr.lower b)).
  now f_equal.
Qed.

Lemma prefix_append_r p s b :
  String.prefix p s = true -> String.prefix p (s ++ b) = true.
Proof.
  revert s. induction p as [|c p IH]; intros s.
  { intros _. now destruct (s ++ b). }
  destruct s as [|d s]; cbn [String.prefix]; [discriminate |].
  change (String d s ++ b) with (String d (s ++ b)). cbn [String.prefix].
  destruct (ascii_dec c d); [apply IH | discriminate].
Qed.

Lemma contains_append_r w s b :
  PyStr.contains w s = true -> PyStr.contains w (s ++ b) = true.
Proof.
  induction s as [|d s IH]; cbn [PyStr.contains]; rewrite !orb_true_iff.
  - intros [H | H]; [| discriminate].
    apply startswith_contains. now apply (prefix_append_r w "" b).
  - intros [H | H].
    + apply startswith_contains. now apply (prefix_append_r w (String d s) b).
    + change (String d s ++ b) with (String d (s ++ b)).
      cbn [PyStr.contains]. rewrite orb_true_iff. right. now apply IH.
Qed.

Lemma contains_append_l w a s :
  PyStr.contains w s = true -> PyStr.contains w (a ++ s) = true.
Proof.
  intros H. induction a as [|c a IH]; [exact H |].
  change (String c a ++ s) with (String c (a ++ s)).
  cbn [PyStr.contains]. rewrite orb_true_iff. now right.
Qed.

Lemma any_in_context ws a s b :
  PyStr.any_in ws s = true -> PyStr.any_in ws (a ++ s ++ b) = true.
Proof.
  rewrite !any_in_spec. intros (w & Hin & Hw). exists w. split; [exact Hin |].
  now apply contains_append_l, contains_append_r.
Qed.

End TriggerFacts.

(** X20. The trigger test looks for its words anywhere in the message: text
    put before or after a message that calls the narrator gives a message
    that calls the narrator too. *)
Theorem X20_trigger_survives_context (before msg after : string) :
  triggers_dm msg = true ->
  triggers_dm (before ++ msg ++ after) = true.
Proof.
  unfold triggers_dm. rewrite !lower_append, !orb_true_iff.
  intros [H | H]; [left | right]; now apply any_in_context.
Qed.

Lemma X20_witness :
  triggers_dm "?" = true /\ triggers_dm ("so " ++ "?" ++ "!!") = true.
Proof.
  split; [reflexivity |]. now apply X20_trigger_survives_context.
Defined.

(** X21. For a connection with a session, a message is plain chat exactly
    when the trigger test fails: then the only emission is the message
    itself, sent to the room of the sender without the sender, and the state
    is unchanged. A message that passes the test is always answered by a
    further emission. *)
Theorem X21_plain_chat (sid msg : string) (net : PostOutcome) (now : Clock)
    (w : World) (u : User) :
  USERS w !! sid = Some u ->
  let echo := emit (to_room (room u) false) (message (username u) msg) in
  (triggers_dm msg = false -> handle_message sid msg net now w = (w, [echo]))
  /\ ((handle_message sid msg net now w).2 = [echo] <-> triggers_dm msg = false).
Proof.
  intros Hu echo. subst echo.
  assert (Hquiet : triggers_dm msg = false ->
                   handle_message sid msg net now w
                   = (w, [emit (to_room (room u) false) (message (username u) msg)])).
  { intros Ht. unfold handle_message. now rewrite Hu, Ht. }
  split; [exact Hquiet |]. split.
  - intros Hout. destruct (triggers_dm msg) eqn:Ht; [| reflexivity].
    pose proof (handle_message_reply sid msg net now w u Hu Ht) as Hlast.
    rewrite Hout in Hlast. cbn in Hlast. discriminate.
  - intros Ht. now rewrite Hquiet.
Qed.

Lemma X21_witness :
  let w := run (init g0) two_in_cave in
  USERS w !! "s1" = Some (mkUser "alice" (mkCharacter "Wizard" 10 []) "cave")
  /\ handle_message "s1" "hello everyone" (post_raises "unused") noon w
     = (w, [emit (to_room "cave" false) (message "alice" "hello everyone")]).
Proof.
  cbv zeta.
  assert (Hu : USERS (run (init g0) two_in_cave) !! "s1"
               = Some (mkUser "alice" (mkCharacter "Wizard" 10 []) "cave"))
    by reflexivity.
  split; [exact Hu |].
  apply (proj1 (X21_plain_chat "s1" "hello everyone" (post_raises "unused") noon
                  _ _ Hu)).
  reflexivity.
Defined.

(** ** Leaving a room that is not there *)

(** X22. A leave by a connection whose room is not in the registry (it never
    joined, or the room was deleted) changes no room and no session; the
    departure is announced to that room id all the same, and the room list
    is broadcast. *)
Theorem X22_leave_vanished_room (sid : string) (w : World) (u : User) :
  USERS w !! sid = Some u ->
  GAME_ROOMS w !! room u = None ->
  GAME_ROOMS (on_leave sid w).1 = GAME_ROOMS w
  /\ USERS (on_leave sid w).1 = USERS w
  /\ (on_leave sid w).2
     = [emit (to_room (room u) true)
          (message "System" (username u ++ " departs the realm."));
        emit to_everyone (room_update (room_counts_nonempty (GAME_ROOMS w)))].
Proof.
  intros Hu Habs. rewrite (on_leave_session _ _ _ Hu). cbv zeta.
  cbn [fst snd GAME_ROOMS USERS]. unfold rooms_after_leave. rewrite Habs.
  repeat split.
Qed.

Lemma X22_witness :
  let w := run (init g0) [ev_create_character "s1" "alice" "Wizard" 10] in
  (USERS w !! "s1"
   = Some (mkUser "alice" (mkCharacter "Wizard" 10 []) "main_adventure")
   /\ GAME_ROOMS w !! "main_adventure" = None)
  /\ (on_leave "s1" w).2
     = [emit (to_room "main_adventure" true)
          (message "System" "alice departs the realm.");
        emit to_everyone (room_update ∅)].
Proof.
  cbv zeta.
  set (w := run (init g0) _).
  assert (Hu : USERS w !! "s1"
               = Some (mkUser "alice" (mkCharacter "Wizard" 10 []) "main_adventure"))
    by reflexivity.
  split; [split; [exact Hu | reflexivity] |].
  destruct (X22_leave_vanished_room "s1" w _ Hu eq_refl) as (_ & _ & Hout).
  etransitivity; [exact Hout |]. reflexivity.
Defined.
